(** * Boston Airbnb Finder (app.py): loader, cleaner, query layer, aggregation

    A shallow embedding of the data-handling code of [app.py]: [load_data],
    [filter_listings] and the table computations of the four query pages.
    The Streamlit widgets, the pydeck maps and the matplotlib chart only
    consume the tables computed here and are not modelled.

    Modelling conventions.
    - A pandas cell read from a CSV file is missing (NaN), a number or a
      text: type [cell].  A float64 cell (a column after [pd.to_numeric])
      is missing or a number: type [float64].  Finite numbers are rationals
      and arithmetic on them is exact; comparisons with NaN are false, as
      in IEEE 754.
    - A DataFrame is the list of its rows, in index order; a boolean-mask
      selection [df[mask]] is a [List.filter].
    - Exceptions are explicit results ([outcome]); messages sent to
      [st.error] are collected in a log. *)

From Stdlib Require Import QArith Qround Qminmax Lqa Ascii String.
From Stdlib Require Import Sorting.Sorted Sorting.Permutation.
From stdpp Require Import gmap strings list fin_maps sorting.

Local Open Scope Q_scope.

(** ** Cells *)

(** A value of an object column as [pd.read_csv] delivers it. *)
Inductive cell : Type :=
  | CNaN
  | CNum (q : Q)
  | CStr (s : string).

(** A value of a float64 column. *)
Inductive float64 : Type :=
  | nan
  | fin (q : Q).

(** Exceptions the modelled code can raise or catch. *)
Inductive exn : Type :=
  | FileNotFoundError (msg : string)
  | ParserError (msg : string)
  | TypeError
  | OtherError (msg : string).

Inductive outcome (A : Type) : Type :=
  | Ok (a : A)
  | Raise (e : exn).
Arguments Ok {A} a.
Arguments Raise {A} e.

Definition bind {A B : Type} (m : outcome A) (k : A -> outcome B) : outcome B :=
  match m with
  | Ok a => k a
  | Raise e => Raise e
  end.

Notation "'let?' x := m 'in' k" := (bind m (fun x => k))
  (at level 10, x name, m at level 100, k at level 200).

(** [mapM f l]: apply [f] to the elements from left to right, stop at the
    first exception. *)
Fixpoint mapM {A B : Type} (f : A -> outcome B) (l : list A) : outcome (list B) :=
  match l with
  | [] => Ok []
  | a :: l' => let? b := f a in let? bs := mapM f l' in Ok (b :: bs)
  end.

(** ** Comparisons and arithmetic on float64 cells *)

(** [x >= y] and [x <= y] of a float64 cell against a number: false on NaN. *)
Definition fge (x : float64) (y : Q) : bool :=
  match x with
  | nan => false
  | fin q => Qle_bool y q
  end.

Definition fle (x : float64) (y : Q) : bool :=
  match x with
  | nan => false
  | fin q => Qle_bool q y
  end.

(** [x * k] on a float64 cell: NaN propagates. *)
Definition fmul (x : float64) (k : Q) : float64 :=
  match x with
  | nan => nan
  | fin q => fin (q * k)
  end.

Definition notna (c : cell) : bool :=
  match c with
  | CNaN => false
  | _ => true
  end.

(** ** Rows of the listings table *)

(** A row of [listings.csv] as read: the columns the program touches.
    [name] and [neighbourhood] are text columns (an empty CSV field is
    read as missing, [None]); the other columns are whatever the file
    holds. *)
Record RawListing : Type := mkRaw {
  raw_name : option string;
  raw_neighbourhood : option string;
  raw_price : cell;
  raw_availability_365 : cell;
  raw_number_of_reviews : cell;
  raw_reviews_per_month : cell;
  raw_latitude : cell;
  raw_longitude : cell
}.

(** A row of a listings table whose numeric columns are float64. *)
Record Listing : Type := mkListing {
  name : option string;
  neighbourhood : option string;
  price : float64;
  availability_365 : float64;
  number_of_reviews : float64;
  reviews_per_month : float64;
  latitude : cell;
  longitude : cell
}.

(** The same row in a table that also has the [rating] column. *)
Record RatedListing : Type := mkRated {
  base :> Listing;
  rating : float64
}.

(** ** The cleaner of [load_data] (lines 47-61) *)

Section Cleaner.

(** [pd.to_numeric] parses text cells; the parser belongs to pandas and
    is a parameter here: [Some q] when the text is a number. *)
Variable parse_number : string -> option Q.

Definition to_numeric (c : cell) : float64 :=
  match c with
  | CNaN => nan
  | CNum q => fin q
  | CStr s => match parse_number s with
              | Some q => fin q
              | None => nan
              end
  end.

(** [listings.dropna(subset=["price", "availability_365",
    "neighbourhood", "number_of_reviews"])]. *)
Definition dropna_keep (r : RawListing) : bool :=
  notna (raw_price r) && notna (raw_availability_365 r)
  && bool_decide (is_Some (raw_neighbourhood r))
  && notna (raw_number_of_reviews r).

Definition dropna (t : list RawListing) : list RawListing :=
  List.filter dropna_keep t.

(** [.fillna(0)]. *)
Definition fillna0 (c : cell) : cell :=
  match c with
  | CNaN => CNum 0
  | _ => c
  end.

(** [lambda x: x * 5 if x * 5 <= 5 else 5].  On a text cell [x * 5]
    is a text and its comparison with [5] raises [TypeError]; a missing
    cell does not reach the lambda after [fillna0], and would give 5
    because [nan <= 5] is false. *)
Definition rating_lambda (x : cell) : outcome Q :=
  match x with
  | CNum q => Ok (if Qle_bool (q * 5) 5 then q * 5 else 5)
  | CNaN => Ok 5
  | CStr _ => Raise TypeError
  end.

(** The numeric value of a cell of the [reviews_per_month] column once
    the lambda has accepted it. *)
Definition cell_float (c : cell) : float64 :=
  match c with
  | CNum q => fin q
  | _ => nan
  end.

(** Lines 50-59 on one row the null check has kept: the three coercions,
    the fill of [reviews_per_month], the rating. *)
Definition clean_row (r : RawListing) : outcome RatedListing :=
  let rpm := fillna0 (raw_reviews_per_month r) in
  let? rt := rating_lambda rpm in
  Ok {| base := {| name := raw_name r;
                   neighbourhood := raw_neighbourhood r;
                   price := to_numeric (raw_price r);
                   availability_365 := to_numeric (raw_availability_365 r);
                   number_of_reviews := to_numeric (raw_number_of_reviews r);
                   reviews_per_month := cell_float rpm;
                   latitude := raw_latitude r;
                   longitude := raw_longitude r |};
        rating := fin rt |}.

(** The listings table [load_data] returns for the table it has read; the
    first row on which the rating lambda raises ends the call. *)
Definition clean (t : list RawListing) : outcome (list RatedListing) :=
  mapM clean_row (dropna t).

End Cleaner.

(** ** The loader of [load_data] (lines 31-45) *)

Record Restaurant : Type := mkRestaurant {
  rest_name : option string;
  Location : option string;
  Cuisine : option string
}.

(** One row per neighbourhood of [neighbourhoods.csv]. *)
Definition Neighbourhoods : Type := list string.

(** [reviews.csv] is loaded and never looked at. *)
Definition Reviews : Type := list (list cell).

(** What each of the four reads does: the table, or the exception that
    [pd.read_csv] / [pd.read_excel] raises. *)
Record Sources : Type := mkSources {
  listings_csv : outcome (list RawListing);
  neighbourhoods_csv : outcome Neighbourhoods;
  reviews_csv : outcome Reviews;
  restaurants_xlsx : outcome (list Restaurant)
}.

(** The body of the [try]: four reads in sequence, the first exception
    ends it. *)
Definition read_sources (src : Sources)
  : outcome (list RawListing * Neighbourhoods * Reviews * list Restaurant) :=
  let? listings := listings_csv src in
  let? neighbourhoods := neighbourhoods_csv src in
  let? reviews := reviews_csv src in
  let? restaurants := restaurants_xlsx src in
  Ok (listings, neighbourhoods, reviews, restaurants).

(** The tuple [load_data] returns; [None] is Python's [None]. *)
Definition Tables : Type :=
  (option (list RatedListing) * option Neighbourhoods
   * option Reviews * option (list Restaurant))%type.

Definition no_tables : Tables := (None, None, None, None).

(** The result of a call: the messages passed to [st.error], and the
    returned value or the exception that escapes. *)
Definition load_data (parse_number : string -> option Q) (src : Sources)
  : list string * outcome Tables :=
  match read_sources src with
  | Raise (FileNotFoundError e) =>
      ([String.append "File not found: " e], Ok no_tables)
  | Raise (ParserError e) =>
      ([String.append "Error parsing CSV or Excel files: " e], Ok no_tables)
  | Raise e => ([], Raise e)
  | Ok (listings, neighbourhoods, reviews, restaurants) =>
      match clean parse_number listings with
      | Raise e => ([], Raise e)
      | Ok cleaned =>
          ([], Ok (Some cleaned, Some neighbourhoods, Some reviews, Some restaurants))
      end
  end.

(** ** [filter_listings] (lines 20-27) *)

(** Truth value of the [neighborhood] argument in [if neighborhood:]:
    [None] and the empty text are false. *)
Definition truthy (neighborhood : option string) : bool :=
  match neighborhood with
  | None => false
  | Some s => negb (String.eqb s "")
  end.

(** [data['neighbourhood'] == s] on one row: a missing cell equals
    nothing. *)
Definition nb_eq (c : option string) (s : string) : bool :=
  match c with
  | None => false
  | Some s' => String.eqb s' s
  end.

(** [data['neighbourhood'] == neighborhood] for the optional argument. *)
Definition nb_eq_arg (c : option string) (neighborhood : option string) : bool :=
  match neighborhood with
  | None => false
  | Some s => nb_eq c s
  end.

(** [(data['price'] >= min_price) & (data['price'] <= max_price)]. *)
Definition price_between (min_price max_price : Q) (r : RatedListing) : bool :=
  fge (price r) min_price && fle (price r) max_price.

Definition filter_listings (data : list RatedListing) (min_price max_price : Q)
    (neighborhood : option string) : list RatedListing :=
  if truthy neighborhood then
    List.filter (fun r : RatedListing =>
                   price_between min_price max_price r
                   && nb_eq_arg (neighbourhood r) neighborhood) data
  else
    List.filter (price_between min_price max_price) data.

(** ** [top_rated_airbnbs_page] (lines 94-105) *)

(** The [listings] argument: a table with or without the [rating]
    column. *)
Inductive ListingsFrame : Type :=
  | WithoutRating (rows : list Listing)
  | WithRating (rows : list RatedListing).

(** [listings['rating'] = listings['reviews_per_month'] * 5]. *)
Definition add_rating (r : Listing) : RatedListing :=
  {| base := r; rating := fmul (reviews_per_month r) 5 |}.

(** Lines 94-95: the assignment is made on the caller's table. *)
Definition ensure_rating (listings : ListingsFrame) : list RatedListing :=
  match listings with
  | WithoutRating rows => map add_rating rows
  | WithRating rows => rows
  end.

(** Line 101: [[name for name in filtered_data['name'] if len(name) > 0]];
    [len] of a missing name (a float NaN) raises [TypeError]. *)
Fixpoint high_rating_names (t : list RatedListing) : outcome (list string) :=
  match t with
  | [] => Ok []
  | r :: t' =>
      match name r with
      | None => Raise TypeError
      | Some s =>
          let? rest := high_rating_names t' in
          Ok (if (0 <? String.length s)%nat then s :: rest else rest)
      end
  end.

(** [filtered_data['neighbourhood'].isin(selected_neighborhoods)]. *)
Definition isin (c : option string) (selected : list string) : bool :=
  existsb (nb_eq c) selected.

(** The call returns the state of the caller's [listings] table after it
    and the table [filtered_data] handed to the map, or the exception. *)
Definition top_rated_airbnbs_page (listings : ListingsFrame) (min_rating : Q)
    (selected_neighborhoods : list string)
  : ListingsFrame * outcome (list RatedListing) :=
  let rated := ensure_rating listings in
  let filtered_data := List.filter (fun r : RatedListing => fge (rating r) min_rating) rated in
  (WithRating rated,
   let? _names := high_rating_names filtered_data in
   Ok (match selected_neighborhoods with
       | [] => filtered_data
       | _ :: _ =>
           List.filter (fun r : RatedListing => isin (neighbourhood r) selected_neighborhoods)
                       filtered_data
       end)).

(** ** [price_distribution_page] (lines 157-183) *)

(** [df.groupby("neighbourhood")]: the prices of each neighbourhood, in
    row order; rows with a missing key belong to no group. *)
Definition groupby_neighbourhood (rows : list RatedListing) : gmap string (list float64) :=
  foldr (fun (r : RatedListing) acc =>
           match neighbourhood r with
           | None => acc
           | Some n => <[n := price r :: default [] (acc !! n)]> acc
           end) ∅ rows.

(** The non-missing values of a column. *)
Fixpoint present (l : list float64) : list Q :=
  match l with
  | [] => []
  | nan :: l' => present l'
  | fin q :: l' => q :: present l'
  end.

Definition Qsum (l : list Q) : Q := foldr Qplus 0 l.

(** [aggfunc="mean"]: missing values are skipped; the mean of no value
    is NaN. *)
Definition mean (l : list float64) : float64 :=
  match present l with
  | [] => nan
  | vs => fin (Qsum vs / inject_Z (Z.of_nat (length vs)))
  end.

(** [pd.pivot_table(..., values="price", index="neighbourhood",
    aggfunc="mean")]: the group means, without the groups whose mean is
    NaN (the default [dropna=True]). *)
Definition pivot_table (rows : list RatedListing) : gmap string Q :=
  omap (fun prices => match mean prices with
                      | nan => None
                      | fin q => Some q
                      end) (groupby_neighbourhood rows).

(** Round to the nearest integer, halves to the even one. *)
Definition rint (q : Q) : Z :=
  let f := Qfloor q in
  match Qcompare (q - inject_Z f) (1 # 2) with
  | Lt => f
  | Gt => (f + 1)%Z
  | Eq => if Z.even f then f else (f + 1)%Z
  end.

(** [.round(2)], the result in lowest terms.  The code rounds the binary
    float of the mean, which at a tie lies on one side of it or the other;
    here a tie goes to the even hundredth. *)
Definition round2 (q : Q) : Q := Qred (inject_Z (rint (q * 100)) / 100).

(** [filtered_data] of the page (lines 157-167). *)
Definition filtered_data (listings : list RatedListing)
    (neighborhood : string) (price_range : Q * Q) : list RatedListing :=
  if String.eqb neighborhood "All" then
    List.filter (fun r : RatedListing =>
                   fge (price r) (fst price_range)
                   && fle (price r) (snd price_range)) listings
  else
    List.filter (fun r : RatedListing =>
                   nb_eq (neighbourhood r) neighborhood
                   && fge (price r) (fst price_range)
                   && fle (price r) (snd price_range)) listings.

(** The table [price_pivot] of the page, as a mapping from neighbourhood
    to mean price ([reset_index] only turns the index into a column). *)
Definition price_distribution_page (listings : list RatedListing)
    (neighborhood : string) (price_range : Q * Q) : gmap string Q :=
  round2 <$> pivot_table (filtered_data listings neighborhood price_range).

(** ** [most_affordable_airbnbs_page] (lines 216-218) *)

(** The order of [sort_values(by='price')]: ascending, NaN last. *)
Definition price_le (a b : float64) : bool :=
  match a, b with
  | fin x, fin y => Qle_bool x y
  | _, nan => true
  | nan, fin _ => false
  end.

Definition by_price (a b : RatedListing) : Prop := price_le (price a) (price b) = true.

(** [affordable_data] for a sorting routine [sort_values], standing for
    [DataFrame.sort_values(by='price')]. *)
Definition most_affordable_airbnbs_page
    (sort_values : list RatedListing -> list RatedListing)
    (listings : list RatedListing) (selected_neighborhood : string)
  : list RatedListing :=
  let affordable_data :=
    filter_listings listings 0 200
      (if String.eqb selected_neighborhood "All" then None
       else Some selected_neighborhood) in
  take 10 (sort_values affordable_data).

(** What pandas promises of [sort_values] with its default
    [kind='quicksort']: the rows are rearranged into ascending order.
    The order of rows with equal keys is not part of the promise. *)
Definition sorts_by_price (sort_values : list RatedListing -> list RatedListing) : Prop :=
  forall l, Permutation (sort_values l) l /\ StronglySorted by_price (sort_values l).

(** Insertion before the first row [y] with [before x y]. *)
Fixpoint insert_by (before : RatedListing -> RatedListing -> bool)
    (x : RatedListing) (l : list RatedListing) : list RatedListing :=
  match l with
  | [] => [x]
  | y :: l' => if before x y then x :: y :: l' else y :: insert_by before x l'
  end.

Definition sort_by (before : RatedListing -> RatedListing -> bool)
    (l : list RatedListing) : list RatedListing :=
  foldr (insert_by before) [] l.

(** The stable ascending sort: a row goes in front of the rows of equal
    price that came after it in the table. *)
Definition stable_sort : list RatedListing -> list RatedListing :=
  sort_by (fun x y => price_le (price x) (price y)).

(** ** [restaurant_page] (lines 268-274) *)

Definition restaurant_page (restaurants : list Restaurant)
    (location cuisine : string) : list Restaurant :=
  let filtered_data := restaurants in
  let filtered_data :=
    if negb (String.eqb location "All") then
      List.filter (fun r => nb_eq (Location r) location) filtered_data
    else filtered_data in
  let filtered_data :=
    if negb (String.eqb cuisine "All") then
      List.filter (fun r => nb_eq (Cuisine r) cuisine) filtered_data
    else filtered_data in
  filtered_data.

(** ** A numeral parser and sample rows for the examples *)

Definition digit_value (c : Ascii.ascii) : option Z :=
  let n := Z.of_nat (nat_of_ascii c) in
  if ((48 <=? n) && (n <=? 57))%Z then Some (n - 48)%Z else None.

(** The digits of [s] read as a number on top of [acc], with their count;
    [None] when [s] holds anything but digits. *)
Fixpoint read_digits (s : string) (acc : Z) (count : nat) : option (Z * nat) :=
  match s with
  | EmptyString => Some (acc, count)
  | String c s' =>
      match digit_value c with
      | Some d => read_digits s' (10 * acc + d)%Z (S count)
      | None => None
      end
  end.

(** Splits [s] at its first full stop. *)
Fixpoint split_point (s : string) : string * option string :=
  match s with
  | EmptyString => (EmptyString, None)
  | String c s' =>
      if Ascii.eqb c "."%char then (EmptyString, Some s')
      else let '(a, b) := split_point s' in (String c a, b)
  end.

(** Plain decimal numerals such as [12], [12.5] and [-3.25].  pandas
    reads more notations than these; a text such as [$100.00] is a number
    for neither. *)
Definition decimal_number (s : string) : option Q :=
  let '(neg, body) :=
    match s with
    | String "-"%char s' => (true, s')
    | _ => (false, s)
    end in
  let '(whole, frac) := split_point body in
  match read_digits whole 0 0 with
  | Some (w, S _) =>
      let v :=
        match frac with
        | None => Some (inject_Z w)
        | Some f =>
            match read_digits f 0 0 with
            | Some (n, k) => Some (inject_Z w + inject_Z n / inject_Z (10 ^ Z.of_nat k))
            | None => None
            end
        end in
      match v with
      | Some q => Some (Qred (if neg then - q else q))
      | None => None
      end
  | _ => None
  end.

(** A raw row with the given name, neighbourhood, price and reviews per
    month; the other columns are filled with fixed numbers. *)
Definition raw_row (nm nb : option string) (p rpm : cell) : RawListing :=
  {| raw_name := nm; raw_neighbourhood := nb; raw_price := p;
     raw_availability_365 := CNum 120; raw_number_of_reviews := CNum 8;
     raw_reviews_per_month := rpm;
     raw_latitude := CNum (4236 # 100); raw_longitude := CNum (- (7106 # 100)) |}.

Definition unrated_row (nm nb : option string) (p rpm : float64) : Listing :=
  {| name := nm; neighbourhood := nb; price := p;
     availability_365 := fin 120; number_of_reviews := fin 8;
     reviews_per_month := rpm;
     latitude := CNum (4236 # 100); longitude := CNum (- (7106 # 100)) |}.

Definition rated_row (nm nb : option string) (p rpm rt : float64) : RatedListing :=
  {| base := unrated_row nm nb p rpm; rating := rt |}.

(** A raw table: a complete row, a row without neighbourhood, a row
    whose price is a text that is no number, and a row whose price is a
    numeral kept as text. *)
Definition sample_raw : list RawListing :=
  [ raw_row (Some "Loft") (Some "Back Bay") (CNum 150) (CNum (1 # 2));
    raw_row (Some "Studio") None (CNum 80) CNaN;
    raw_row (Some "Harbour view") (Some "Fenway") (CStr "$100.00") CNaN;
    raw_row (Some "Suite") (Some "Fenway") (CStr "95.5") (CNum 3) ].

Definition sample_loft : RatedListing :=
  rated_row (Some "Loft") (Some "Back Bay") (fin 150) (fin (1 # 2)) (fin (5 # 2)).

Definition sample_harbour : RatedListing :=
  rated_row (Some "Harbour view") (Some "Fenway") nan (fin 0) (fin 0).

Definition sample_suite : RatedListing :=
  rated_row (Some "Suite") (Some "Fenway") (fin (191 # 2)) (fin 3) (fin 5).

Definition sample_cleaned : list RatedListing :=
  [sample_loft; sample_harbour; sample_suite].

(** ** numpy's quicksort behind [sort_values] (line 218) *)

(** [DataFrame.sort_values(by='price')] sorts with numpy's [argsort] of
    kind [quicksort].  This is numpy's portable routine ([aquicksort] in
    [npysort/quicksort.cpp]) on the array [v] of keys and the array
    [tosort] of row positions: segments of more than 17 positions are
    partitioned around the median of their first, middle and last key,
    shorter ones are sorted by insertion.  Builds of numpy for processors
    with vector units use another routine for long arrays, not stable
    either. *)

(** [a < b] on keys. *)
Definition Qlt_bool (a b : Q) : bool := negb (Qle_bool b a).

(** [v[tosort[i]]]. *)
Definition key_at (v : list Q) (tosort : list nat) (i : nat) : Q :=
  nth (nth i tosort 0%nat) v 0.

(** [INTP_SWAP(tosort[i], tosort[j])]. *)
Definition swap_at (tosort : list nat) (i j : nat) : list nat :=
  <[i := nth j tosort 0%nat]> (<[j := nth i tosort 0%nat]> tosort).

(** [do { ++pi; } while (v[*pi] < vp);]. *)
Fixpoint scan_up (fuel : nat) (v : list Q) (tosort : list nat) (vp : Q) (pi : nat) : nat :=
  match fuel with
  | O => pi
  | S fuel' =>
      if Qlt_bool (key_at v tosort (S pi)) vp then scan_up fuel' v tosort vp (S pi)
      else S pi
  end.

(** [do { --pj; } while (vp < v[*pj]);]. *)
Fixpoint scan_down (fuel : nat) (v : list Q) (tosort : list nat) (vp : Q) (pj : nat) : nat :=
  match fuel with
  | O => pj
  | S fuel' =>
      if Qlt_bool vp (key_at v tosort (pj - 1)) then scan_down fuel' v tosort vp (pj - 1)
      else (pj - 1)%nat
  end.

(** The partition loop: scan from both ends, swap, until the scans meet;
    the result is the array and the meeting position [pi]. *)
Fixpoint partition_loop (fuel : nat) (v : list Q) (tosort : list nat) (vp : Q)
    (pi pj : nat) : list nat * nat :=
  match fuel with
  | O => (tosort, pi)
  | S fuel' =>
      let pi' := scan_up (length tosort) v tosort vp pi in
      let pj' := scan_down (length tosort) v tosort vp pj in
      if (pj' <=? pi')%nat then (tosort, pi')
      else partition_loop fuel' v (swap_at tosort pi' pj') vp pi' pj'
  end.

(** One partition of the segment [[pl, pr]]. *)
Definition partition_segment (v : list Q) (tosort : list nat) (pl pr : nat)
  : list nat * nat :=
  let pm := (pl + (pr - pl) / 2)%nat in
  let t1 := if Qlt_bool (key_at v tosort pm) (key_at v tosort pl)
            then swap_at tosort pm pl else tosort in
  let t2 := if Qlt_bool (key_at v t1 pr) (key_at v t1 pm)
            then swap_at t1 pr pm else t1 in
  let t3 := if Qlt_bool (key_at v t2 pm) (key_at v t2 pl)
            then swap_at t2 pm pl else t2 in
  let vp := key_at v t3 pm in
  let t4 := swap_at t3 pm (pr - 1) in
  let '(t5, pi) := partition_loop (length tosort) v t4 vp pl (pr - 1) in
  (swap_at t5 pi (pr - 1), pi).

(** [while (pj > pl && vp < v[*pk]) { *pj-- = *pk--; }]. *)
Fixpoint shift_up (fuel : nat) (v : list Q) (tosort : list nat) (vp : Q) (pl pj : nat)
  : list nat * nat :=
  match fuel with
  | O => (tosort, pj)
  | S fuel' =>
      if (pl <? pj)%nat && Qlt_bool vp (key_at v tosort (pj - 1)) then
        shift_up fuel' v (<[pj := nth (pj - 1) tosort 0%nat]> tosort) vp pl (pj - 1)
      else (tosort, pj)
  end.

(** The insertion sort of the positions [pi .. pi + count - 1] into the
    segment that starts at [pl]. *)
Fixpoint insertion_sort_from (count : nat) (v : list Q) (tosort : list nat) (pl pi : nat)
  : list nat :=
  match count with
  | O => tosort
  | S count' =>
      let vi := nth pi tosort 0%nat in
      let '(t, pj) := shift_up (length tosort) v tosort (nth vi v 0) pl pi in
      insertion_sort_from count' v (<[pj := vi]> t) pl (S pi)
  end.

(** The main loop, with its stack of pending segments and their depth
    budgets.  [None] stands for the switch to heapsort when the budget is
    used up, which is not modelled, and for the end of [fuel]. *)
Fixpoint aquicksort_loop (fuel : nat) (v : list Q) (tosort : list nat) (pl pr : nat)
    (stack : list (nat * nat * Z)) (cdepth : Z) (popped : bool) : option (list nat) :=
  match fuel with
  | O => None
  | S fuel' =>
      if popped && (cdepth <? 0)%Z then None
      else if (16 <? pr - pl)%nat then
        let '(t, pi) := partition_segment v tosort pl pr in
        if (pi - pl <? pr - pi)%nat then
          aquicksort_loop fuel' v t pl (pi - 1)
            ((S pi, pr, cdepth - 1)%Z :: stack) (cdepth - 1)%Z false
        else
          aquicksort_loop fuel' v t (S pi) pr
            ((pl, (pi - 1)%nat, cdepth - 1)%Z :: stack) (cdepth - 1)%Z false
      else
        let t := insertion_sort_from (pr - pl) v tosort pl (S pl) in
        match stack with
        | [] => Some t
        | (l, r, d) :: stack' => aquicksort_loop fuel' v t l r stack' d true
        end
  end.

(** [np.argsort(v, kind='quicksort')]. *)
Definition aquicksort (v : list Q) : option (list nat) :=
  aquicksort_loop (4 * length v + 4) v (seq 0 (length v)) 0 (length v - 1) []
    (2 * Z.log2 (Z.of_nat (length v)))%Z true.

(** The positions of the rows that have a price, and of those that have
    none. *)
Fixpoint priced_positions (prices : list float64) (i : nat) : list (nat * Q) * list nat :=
  match prices with
  | [] => ([], [])
  | x :: prices' =>
      let '(priced, missing) := priced_positions prices' (S i) in
      match x with
      | fin q => ((i, q) :: priced, missing)
      | nan => (priced, i :: missing)
      end
  end.

(** pandas' [nargsort]: the priced rows in the order of [argsort], the
    rows without price last. *)
Definition nargsort (prices : list float64) : option (list nat) :=
  let '(priced, missing) := priced_positions prices 0 in
  match aquicksort (map snd priced) with
  | Some indexer => Some (map (fun k => nth k (map fst priced) 0%nat) indexer ++ missing)
  | None => None
  end.

Definition sort_values_quicksort (rows : list RatedListing) : option (list RatedListing) :=
  match nargsort (map (fun r : RatedListing => price r) rows) with
  | Some indexer => Some (omap (fun i => rows !! i) indexer)
  | None => None
  end.

(** [sort_values] as a function on tables; where the model above has no
    answer the table is left as it is. *)
Definition sort_values_numpy (rows : list RatedListing) : list RatedListing :=
  default rows (sort_values_quicksort rows).

(** Listing number [i] of a table of listings that all cost 100; the
    number is kept in [number_of_reviews]. *)
Definition numbered_listing (i : nat) : RatedListing :=
  {| base := {| name := Some "Room"; neighbourhood := Some "Fenway";
                price := fin 100; availability_365 := fin 120;
                number_of_reviews := fin (inject_Z (Z.of_nat i));
                reviews_per_month := fin 1;
                latitude := CNum (4236 # 100); longitude := CNum (- (7106 # 100)) |};
     rating := fin 5 |}.

Definition equal_price_table : list RatedListing := map numbered_listing (seq 0 300).

(** ** Predicates of the specification *)

(** The row has a price, and it lies in [[lo, hi]], both ends included. *)
Definition in_price_range (lo hi : Q) (r : RatedListing) : Prop :=
  exists p, price r = fin p /\ lo <= p /\ p <= hi.

(** Two prices that the sort order does not separate. *)
Definition same_price (a b : float64) : bool := price_le a b && price_le b a.

(** A listing without a name: the cleaner keeps it, [name] is not among
    the columns of its null check. *)
Definition nameless_raw : RawListing :=
  raw_row None (Some "Fenway") (CNum 120) (CNum 2).

Definition nameless_row : RatedListing :=
  rated_row None (Some "Fenway") (fin 120) (fin 2) (fin 5).

(** A listings table that lacks the [rating] column. *)
Definition busy_listing : Listing :=
  unrated_row (Some "Loft") (Some "Back Bay") (fin 150) (fin 2).

Definition loaded {A : Type} (o : outcome A) : Prop := exists t, o = Ok t.

(** Three sources load, [restaurants.xlsx] is missing. *)
Definition sources_without_restaurants : Sources :=
  {| listings_csv := Ok sample_raw;
     neighbourhoods_csv := Ok ["Back Bay"; "Fenway"];
     reviews_csv := Ok [];
     restaurants_xlsx := Raise (FileNotFoundError "restaurants.xlsx") |}.

(** A single listing priced 100. *)
Definition hundred_table : list RatedListing :=
  [ rated_row (Some "Room") (Some "Roxbury") (fin 100) (fin 1) (fin 5) ].

(** ** The price slider of [price_distribution_page] (lines 149-154) *)

(** [Series.min()] and [Series.max()]: missing values are skipped; NaN
    when nothing is left. *)
Definition series_min (l : list float64) : float64 :=
  match present l with
  | [] => nan
  | v :: vs => fin (foldr Qmin v vs)
  end.

Definition series_max (l : list float64) : float64 :=
  match present l with
  | [] => nan
  | v :: vs => fin (foldr Qmax v vs)
  end.

(** Python's [int] on a float: truncation towards zero; [int(nan)] raises
    [ValueError]. *)
Definition py_int (x : float64) : outcome Z :=
  match x with
  | nan => Raise (OtherError "ValueError: cannot convert float NaN to integer")
  | fin q => Ok (if Qle_bool 0 q then Qfloor q else Qceiling q)
  end.

(** [min_value] and [max_value] of the price slider. *)
Definition price_slider_bounds (listings : list RatedListing) : outcome (Z * Z) :=
  let prices := map (fun r : RatedListing => price r) listings in
  let? min_value := py_int (series_min prices) in
  let? max_value := py_int (series_max prices) in
  Ok (min_value, max_value).

(** The page up to its pivot table: the slider is built first.  The
    checks Streamlit makes on the slider's arguments are not modelled. *)
Definition price_distribution_view (listings : list RatedListing)
    (neighborhood : string) (price_range : Q * Q) : outcome (gmap string Q) :=
  let? _bounds := price_slider_bounds listings in
  Ok (price_distribution_page listings neighborhood price_range).

(** ** [main] (lines 281-315) *)

(** The values the widgets of the pages return. *)
Record Widgets : Type := mkWidgets {
  min_rating_slider : Q;
  selected_neighborhoods_multiselect : list string;
  neighborhood_selectbox : string;
  price_range_slider : Q * Q;
  selected_neighborhood_selectbox : string;
  location_selectbox : string;
  cuisine_selectbox : string
}.

(** What a run of [main] puts on the screen: the table of the page that
    was rendered, or nothing. *)
Inductive View : Type :=
  | NoView
  | HomeView
  | TopRatedView (filtered : list RatedListing)
  | PriceView (price_pivot : gmap string Q)
  | AffordableView (affordable : list RatedListing)
  | RestaurantView (filtered : list Restaurant).

Definition load_error : string :=
  "Error loading data. Please check the file paths and try again.".

(** [page] is the value of the sidebar select box.  The result is the
    list of [st.error] messages and the view, or the exception that
    escapes. *)
Definition main (parse_number : string -> option Q)
    (sort_values : list RatedListing -> list RatedListing)
    (src : Sources) (page : string) (w : Widgets) : list string * outcome View :=
  match load_data parse_number src with
  | (log, Raise e) => (log, Raise e)
  | (log, Ok (Some listings, Some neighbourhoods, Some reviews, Some restaurants)) =>
      if String.eqb page "Home" then (log, Ok HomeView)
      else if String.eqb page "Top-Rated Airbnbs" then
        (log,
         let? filtered :=
           snd (top_rated_airbnbs_page (WithRating listings) (min_rating_slider w)
                  (selected_neighborhoods_multiselect w)) in
         Ok (TopRatedView filtered))
      else if String.eqb page "Price Distribution" then
        (log,
         let? pivot :=
           price_distribution_view listings (neighborhood_selectbox w)
             (price_range_slider w) in
         Ok (PriceView pivot))
      else if String.eqb page "Most Affordable Airbnbs" then
        (log, Ok (AffordableView
                    (most_affordable_airbnbs_page sort_values listings
                       (selected_neighborhood_selectbox w))))
      else if String.eqb page "Boston Restaurants" then
        (log, Ok (RestaurantView
                    (restaurant_page restaurants (location_selectbox w)
                       (cuisine_selectbox w))))
      else (log, Ok NoView)
  | (log, Ok _) => (log ++ [load_error], Ok NoView)
  end.

(** ** Further predicates and sample data *)

(** The rating the cleaner derives from a float64 [reviews_per_month]
    (lines 56 and 59): a missing value is filled with 0 first. *)
Definition cleaner_rating (rpm : float64) : float64 :=
  match rpm with
  | nan => fin (if Qle_bool (0 * 5) 5 then 0 * 5 else 5)
  | fin q => fin (if Qle_bool (q * 5) 5 then q * 5 else 5)
  end.

Definition with_cleaner_rating (r : Listing) : RatedListing :=
  {| base := r; rating := cleaner_rating (reviews_per_month r) |}.

(** [e] is raised by the first source, in reading order, that does not
    load. *)
Definition first_failure (src : Sources) (e : exn) : Prop :=
  listings_csv src = Raise e
  \/ (loaded (listings_csv src) /\ neighbourhoods_csv src = Raise e)
  \/ (loaded (listings_csv src) /\ loaded (neighbourhoods_csv src)
      /\ reviews_csv src = Raise e)
  \/ (loaded (listings_csv src) /\ loaded (neighbourhoods_csv src)
      /\ loaded (reviews_csv src) /\ restaurants_xlsx src = Raise e).

Definition sample_restaurants : list Restaurant :=
  [ {| rest_name := Some "Oyster House"; Location := Some "North End";
       Cuisine := Some "Seafood" |};
    {| rest_name := Some "Trattoria"; Location := Some "North End";
       Cuisine := Some "Italian" |};
    {| rest_name := Some "Noodle Bar"; Location := None;
       Cuisine := Some "Asian" |} ].

Definition sample_sources : Sources :=
  {| listings_csv := Ok sample_raw;
     neighbourhoods_csv := Ok ["Back Bay"; "Fenway"];
     reviews_csv := Ok [];
     restaurants_xlsx := Ok sample_restaurants |}.

Definition sample_widgets : Widgets :=
  {| min_rating_slider := 9 # 2;
     selected_neighborhoods_multiselect := ["Fenway"];
     neighborhood_selectbox := "All";
     price_range_slider := (50, 300);
     selected_neighborhood_selectbox := "All";
     location_selectbox := "North End";
     cuisine_selectbox := "All" |}.

(** [listings.csv] loads, [neighbourhoods.csv] raises an exception the
    loader does not handle, the last two files are missing. *)
Definition sources_permission_denied : Sources :=
  {| listings_csv := Ok sample_raw;
     neighbourhoods_csv := Raise (OtherError "PermissionError");
     reviews_csv := Raise (FileNotFoundError "reviews.csv");
     restaurants_xlsx := Raise (FileNotFoundError "restaurants.xlsx") |}.

(** A kept row whose [reviews_per_month] is a text. *)
Definition text_rpm_raw : RawListing :=
  raw_row (Some "Attic") (Some "Fenway") (CNum 70) (CStr "n/a").

(** The three CSV files load, the content of [restaurants.xlsx] is not an
    Excel workbook: [pd.read_excel] raises [ValueError]. *)
Definition sources_malformed_excel : Sources :=
  {| listings_csv := Ok sample_raw;
     neighbourhoods_csv := Ok ["Back Bay"; "Fenway"];
     reviews_csv := Ok [];
     restaurants_xlsx :=
       Raise (OtherError "ValueError: Excel file format cannot be determined") |}.

(** * Properties *)

Example decimal_number_examples :
  decimal_number "12" = Some 12 /\ decimal_number "12.5" = Some (25 # 2)
  /\ decimal_number "-3.25" = Some (- (13 # 4)) /\ decimal_number "$100.00" = None
  /\ decimal_number "" = None /\ decimal_number "abc" = None.
Proof. repeat split; vm_compute; reflexivity. Qed.

(** ** Results of [mapM] *)

Lemma mapM_Ok_In {A B : Type} (f : A -> outcome B) (l : list A) (l' : list B) (b : B) :
  mapM f l = Ok l' -> In b l' -> exists a, In a l /\ f a = Ok b.
Proof.
  revert l'. induction l as [|a l IH]; simpl; intros l' Hm Hin.
  - inversion Hm; subst. destruct Hin.
  - destruct (f a) as [b0|e] eqn:Hfa; simpl in Hm; [|discriminate].
    destruct (mapM f l) as [bs|e] eqn:Hl; simpl in Hm; [|discriminate].
    inversion Hm; subst. destruct Hin as [->|Hin].
    + exists a. auto.
    + destruct (IH bs eq_refl Hin) as (a' & Ha' & Hf). exists a'. auto.
Qed.

Lemma mapM_returns {A B : Type} (f : A -> outcome B) (l : list A) :
  (forall a, In a l -> exists b, f a = Ok b) -> exists l', mapM f l = Ok l'.
Proof.
  induction l as [|a l IH]; simpl; intros H.
  - eauto.
  - destruct (H a (or_introl eq_refl)) as [b ->].
    destruct IH as [bs ->]; [intros; apply H; auto|]. simpl. eauto.
Qed.

(** ** The cleaner *)

Lemma rating_lambda_min (q : Q) : rating_lambda (CNum q) = Ok (Qmin (q * 5) 5).
Proof.
  unfold rating_lambda, Qmin, GenericMinMax.gmin. f_equal.
  destruct (Qle_bool (q * 5) 5) eqn:Hle.
  - apply Qle_bool_iff in Hle. apply -> Qle_alt in Hle.
    destruct (q * 5 ?= 5) eqn:Hc; congruence.
  - destruct (q * 5 ?= 5) eqn:Hc; try reflexivity;
      exfalso; assert (Hq : q * 5 <= 5) by (apply Qle_alt; congruence);
      apply Qle_bool_iff in Hq; congruence.
Qed.

Lemma capped_rating_bounds (q : Q) :
  Qmin (q * 5) 5 <= 5 /\
  (0 <= q -> 0 <= Qmin (q * 5) 5 /\ (Qmin (q * 5) 5 == 0 <-> q == 0)).
Proof.
  destruct (Q.min_spec (q * 5) 5) as [[Hlt Hm]|[Hle Hm]]; rewrite Hm.
  - split; [lra|]. intros Hq. split; [lra|]. split; intros; lra.
  - split; [lra|]. intros Hq. split; [lra|]. split; intros; lra.
Qed.

Lemma clean_row_Ok (parse : string -> option Q) (x : RawListing) (r : RatedListing) :
  clean_row parse x = Ok r ->
  exists q, fillna0 (raw_reviews_per_month x) = CNum q
    /\ reviews_per_month r = fin q
    /\ rating r = fin (Qmin (q * 5) 5)
    /\ name r = raw_name x
    /\ neighbourhood r = raw_neighbourhood x
    /\ price r = to_numeric parse (raw_price x)
    /\ availability_365 r = to_numeric parse (raw_availability_365 x)
    /\ number_of_reviews r = to_numeric parse (raw_number_of_reviews x).
Proof.
  unfold clean_row. intros H.
  destruct (raw_reviews_per_month x) as [|q|s] eqn:Hrpm; simpl in H.
  - exists 0. change (rating_lambda (CNum 0)) with (Ok (A:=Q) (if Qle_bool (0 * 5) 5 then 0 * 5 else 5)) in H.
    simpl in H. inversion H; subst; clear H. simpl.
    repeat split; try reflexivity.
  - exists q. pose proof (rating_lambda_min q) as Hr. simpl in Hr.
    injection Hr as Hr. rewrite Hr in H. inversion H; subst; clear H. simpl.
    repeat split; reflexivity.
  - discriminate.
Qed.

(** The cleaner returns a table unless a row it keeps holds a text in
    [reviews_per_month]. *)
Lemma clean_returns (parse : string -> option Q) (raw : list RawListing) :
  (forall x s, In x raw -> dropna_keep x = true -> raw_reviews_per_month x <> CStr s) ->
  exists cleaned, clean parse raw = Ok cleaned.
Proof.
  intros H. unfold clean. apply mapM_returns. intros x Hx.
  apply filter_In in Hx as [Hx Hk]. unfold clean_row.
  destruct (raw_reviews_per_month x) as [|q|s] eqn:Hrpm; simpl; eauto.
  exfalso. exact (H x s Hx Hk Hrpm).
Qed.

Lemma clean_rows_from_raw (parse : string -> option Q) (raw : list RawListing)
    (cleaned : list RatedListing) (r : RatedListing) :
  clean parse raw = Ok cleaned -> In r cleaned ->
  exists x, In x raw /\ dropna_keep x = true /\ clean_row parse x = Ok r.
Proof.
  unfold clean. intros Hc Hin.
  destruct (mapM_Ok_In _ _ _ _ Hc Hin) as (x & Hx & Hr).
  apply filter_In in Hx as [Hx Hk]. eauto.
Qed.

(** C1: in the table the cleaner produces, every row's rating is
    min(reviews_per_month * 5, 5); hence, for a non-negative
    reviews_per_month, 0 <= rating <= 5 and rating = 0 exactly when
    reviews_per_month = 0. *)
Theorem cleaned_rating_is_capped (parse : string -> option Q)
    (raw : list RawListing) (cleaned : list RatedListing) (r : RatedListing) :
  clean parse raw = Ok cleaned -> In r cleaned ->
  exists q, reviews_per_month r = fin q
    /\ rating r = fin (Qmin (q * 5) 5)
    /\ (0 <= q ->
        0 <= Qmin (q * 5) 5 /\ Qmin (q * 5) 5 <= 5
        /\ (Qmin (q * 5) 5 == 0 <-> q == 0)).
Proof.
  intros Hc Hin.
  destruct (clean_rows_from_raw _ _ _ _ Hc Hin) as (x & _ & _ & Hr).
  destruct (clean_row_Ok _ _ _ Hr) as (q & _ & Hrpm & Hrt & _).
  exists q. split; [exact Hrpm|]. split; [exact Hrt|].
  intros Hq. destruct (capped_rating_bounds q) as [Hle Hnn].
  destruct (Hnn Hq) as [H0 Hiff]. auto.
Qed.

Example clean_sample : clean decimal_number sample_raw = Ok sample_cleaned.
Proof. vm_compute. reflexivity. Qed.

Lemma cleaned_rating_is_capped_witness :
  exists q, reviews_per_month sample_loft = fin q
    /\ rating sample_loft = fin (Qmin (q * 5) 5)
    /\ (0 <= q ->
        0 <= Qmin (q * 5) 5 /\ Qmin (q * 5) 5 <= 5
        /\ (Qmin (q * 5) 5 == 0 <-> q == 0)).
Proof.
  apply (cleaned_rating_is_capped decimal_number sample_raw sample_cleaned sample_loft).
  - vm_compute. reflexivity.
  - simpl. left. reflexivity.
Defined.

Lemma to_numeric_nan_iff (parse : string -> option Q) (c : cell) :
  notna c = true ->
  (to_numeric parse c = nan <-> exists s, c = CStr s /\ parse s = None).
Proof.
  intros Hc. destruct c as [|q|s]; simpl in *; [discriminate| |].
  - split; [discriminate|]. intros (s & Hs & _). discriminate.
  - destruct (parse s) as [q|] eqn:Hp.
    + split; [discriminate|]. intros (s' & Hs & Hp'). congruence.
    + split; [eauto|reflexivity].
Qed.

(** C2, as the code has it: every row of the cleaned table comes from an
    input row whose price, availability_365, neighbourhood and
    number_of_reviews are all present; each of its three coerced columns
    is the numeric reading of the input value, and is NaN exactly when
    that value is a text that is not a number (the row stays); its rating
    is at most 5, and at least 0 when reviews_per_month is not
    negative. *)
Theorem cleaned_rows_are_coerced (parse : string -> option Q)
    (raw : list RawListing) (cleaned : list RatedListing) (r : RatedListing) :
  clean parse raw = Ok cleaned -> In r cleaned ->
  exists x, In x raw
    /\ (notna (raw_price x) = true /\ notna (raw_availability_365 x) = true
        /\ is_Some (raw_neighbourhood x) /\ notna (raw_number_of_reviews x) = true)
    /\ (price r = to_numeric parse (raw_price x)
        /\ (price r = nan <-> exists s, raw_price x = CStr s /\ parse s = None))
    /\ (availability_365 r = to_numeric parse (raw_availability_365 x)
        /\ (availability_365 r = nan <->
            exists s, raw_availability_365 x = CStr s /\ parse s = None))
    /\ (number_of_reviews r = to_numeric parse (raw_number_of_reviews x)
        /\ (number_of_reviews r = nan <->
            exists s, raw_number_of_reviews x = CStr s /\ parse s = None))
    /\ exists q rt, reviews_per_month r = fin q /\ rating r = fin rt
        /\ rt <= 5 /\ (0 <= q -> 0 <= rt).
Proof.
  intros Hc Hin.
  destruct (clean_rows_from_raw _ _ _ _ Hc Hin) as (x & Hx & Hk & Hr).
  destruct (clean_row_Ok _ _ _ Hr) as (q & _ & Hrpm & Hrt & _ & _ & Hp & Ha & Hn).
  unfold dropna_keep in Hk.
  apply andb_prop in Hk as [Hk Hk4]. apply andb_prop in Hk as [Hk Hk3].
  apply andb_prop in Hk as [Hk1 Hk2]. apply bool_decide_eq_true in Hk3.
  exists x. split; [exact Hx|]. split; [auto|].
  split; [split; [exact Hp|rewrite Hp; apply to_numeric_nan_iff; exact Hk1]|].
  split; [split; [exact Ha|rewrite Ha; apply to_numeric_nan_iff; exact Hk2]|].
  split; [split; [exact Hn|rewrite Hn; apply to_numeric_nan_iff; exact Hk4]|].
  exists q, (Qmin (q * 5) 5). destruct (capped_rating_bounds q) as [Hle Hnn].
  split; [exact Hrpm|]. split; [exact Hrt|]. split; [exact Hle|].
  intros Hq. apply Hnn. exact Hq.
Qed.

Lemma cleaned_rows_are_coerced_witness :
  exists x, In x sample_raw
    /\ (notna (raw_price x) = true /\ notna (raw_availability_365 x) = true
        /\ is_Some (raw_neighbourhood x) /\ notna (raw_number_of_reviews x) = true)
    /\ (price sample_suite = to_numeric decimal_number (raw_price x)
        /\ (price sample_suite = nan <->
            exists s, raw_price x = CStr s /\ decimal_number s = None))
    /\ (availability_365 sample_suite = to_numeric decimal_number (raw_availability_365 x)
        /\ (availability_365 sample_suite = nan <->
            exists s, raw_availability_365 x = CStr s /\ decimal_number s = None))
    /\ (number_of_reviews sample_suite = to_numeric decimal_number (raw_number_of_reviews x)
        /\ (number_of_reviews sample_suite = nan <->
            exists s, raw_number_of_reviews x = CStr s /\ decimal_number s = None))
    /\ exists q rt, reviews_per_month sample_suite = fin q /\ rating sample_suite = fin rt
        /\ rt <= 5 /\ (0 <= q -> 0 <= rt).
Proof.
  apply (cleaned_rows_are_coerced decimal_number sample_raw sample_cleaned sample_suite).
  - vm_compute. reflexivity.
  - simpl. right. right. left. reflexivity.
Defined.

(** C2 as stated fails: the row whose price is the text [$100.00] passes
    the null check, its price is coerced to NaN, and the row is in the
    cleaned table. *)
Lemma cleaned_row_without_price :
  clean decimal_number sample_raw = Ok sample_cleaned
  /\ In sample_harbour sample_cleaned
  /\ price sample_harbour = nan.
Proof.
  split; [vm_compute; reflexivity|].
  split; [simpl; right; left; reflexivity|reflexivity].
Qed.

(** ** [filter_listings] *)

Lemma fge_spec (x : float64) (y : Q) : fge x y = true <-> exists p, x = fin p /\ y <= p.
Proof.
  destruct x as [|q]; simpl.
  - split; [discriminate|]. intros (p & Hp & _). discriminate.
  - rewrite Qle_bool_iff. split; [eauto|]. intros (p & Hp & Hle). congruence.
Qed.

Lemma fle_spec (x : float64) (y : Q) : fle x y = true <-> exists p, x = fin p /\ p <= y.
Proof.
  destruct x as [|q]; simpl.
  - split; [discriminate|]. intros (p & Hp & _). discriminate.
  - rewrite Qle_bool_iff. split; [eauto|]. intros (p & Hp & Hle). congruence.
Qed.

Lemma price_between_spec (lo hi : Q) (r : RatedListing) :
  price_between lo hi r = true <-> in_price_range lo hi r.
Proof.
  unfold price_between, in_price_range. rewrite andb_true_iff, fge_spec, fle_spec.
  split.
  - intros [(p & Hp & Hlo) (p' & Hp' & Hhi)]. exists p.
    rewrite Hp in Hp'. inversion Hp'; subst. auto.
  - intros (p & Hp & Hlo & Hhi). split; exists p; auto.
Qed.

Lemma nb_eq_spec (c : option string) (s : string) : nb_eq c s = true <-> c = Some s.
Proof.
  destruct c as [s'|]; simpl.
  - rewrite String.eqb_eq. split; congruence.
  - split; discriminate.
Qed.

Lemma truthy_spec (neighborhood : option string) :
  truthy neighborhood = true <-> exists s, neighborhood = Some s /\ s <> "".
Proof.
  destruct neighborhood as [s|]; simpl.
  - rewrite negb_true_iff, String.eqb_neq. split; [eauto|].
    intros (s' & Hs & Hne). congruence.
  - split; [discriminate|]. intros (s & Hs & _). discriminate.
Qed.

(** C4: the result is the input with exactly the rows kept whose price
    lies in [[min_price, max_price]], both ends included, in the input's
    order; when a neighborhood is given, which line 21 reads as an
    argument that is neither [None] nor the empty text, the kept rows are
    moreover exactly those whose neighbourhood equals it. *)
Theorem filter_listings_rows (data : list RatedListing) (min_price max_price : Q)
    (neighborhood : option string) :
  exists keep : RatedListing -> bool,
    filter_listings data min_price max_price neighborhood = List.filter keep data
    /\ forall r, keep r = true <->
         in_price_range min_price max_price r
         /\ match neighborhood with
            | Some s => s <> "" -> neighbourhood r = Some s
            | None => True
            end.
Proof.
  unfold filter_listings. destruct (truthy neighborhood) eqn:Ht.
  - apply truthy_spec in Ht as (s & -> & Hne).
    eexists. split; [reflexivity|]. intros r. simpl.
    rewrite andb_true_iff, price_between_spec, nb_eq_spec. tauto.
  - eexists. split; [reflexivity|]. intros r. rewrite price_between_spec.
    destruct neighborhood as [s|]; [|tauto].
    simpl in Ht. apply negb_false_iff, String.eqb_eq in Ht. subst s. tauto.
Qed.

(** The empty text counts as no neighbourhood, like [None]; no caller
    passes it. *)
Lemma filter_listings_empty_neighborhood :
  filter_listings sample_cleaned 0 200 (Some "") = [sample_loft; sample_suite]
  /\ neighbourhood sample_loft <> Some "".
Proof. split; [vm_compute; reflexivity|discriminate]. Qed.

Example filter_listings_bounds_included :
  filter_listings sample_cleaned 150 150 None = [sample_loft]
  /\ filter_listings sample_cleaned (191 # 2) 150 (Some "Fenway") = [sample_suite]
  /\ filter_listings sample_cleaned 0 200 (Some "All") = [].
Proof. repeat split; vm_compute; reflexivity. Qed.

Lemma filter_listings_has_price (data : list RatedListing) (lo hi : Q)
    (neighborhood : option string) (r : RatedListing) :
  In r (filter_listings data lo hi neighborhood) -> In r data /\ in_price_range lo hi r.
Proof.
  unfold filter_listings. intros Hin.
  destruct (truthy neighborhood); apply filter_In in Hin as [Hin Hk].
  - apply andb_prop in Hk as [Hk _]. apply price_between_spec in Hk. auto.
  - apply price_between_spec in Hk. auto.
Qed.

(** ** Sorting by price *)

Lemma price_le_total (a b : float64) : price_le a b = true \/ price_le b a = true.
Proof.
  destruct a as [|x], b as [|y]; simpl; auto.
  rewrite !Qle_bool_iff. destruct (Qlt_le_dec x y) as [H|H]; [left; lra|right; lra].
Qed.

Lemma price_le_trans (a b c : float64) :
  price_le a b = true -> price_le b c = true -> price_le a c = true.
Proof.
  destruct a as [|x], b as [|y], c as [|z]; simpl; auto; try discriminate.
  rewrite !Qle_bool_iff. intros; lra.
Qed.

Lemma by_price_trans (a b c : RatedListing) : by_price a b -> by_price b c -> by_price a c.
Proof. unfold by_price. apply price_le_trans. Qed.

Section InsertionSort.

Variable before : RatedListing -> RatedListing -> bool.
Hypothesis before_le : forall x y, before x y = true -> by_price x y.
Hypothesis behind_ge : forall x y, before x y = false -> by_price y x.

Lemma insert_by_perm (x : RatedListing) (l : list RatedListing) :
  Permutation (insert_by before x l) (x :: l).
Proof using Type.
  induction l as [|y l IH]; simpl; [reflexivity|].
  destruct (before x y); [reflexivity|].
  rewrite IH. apply perm_swap.
Qed.

Lemma insert_by_sorted (x : RatedListing) (l : list RatedListing) :
  StronglySorted by_price l -> StronglySorted by_price (insert_by before x l).
Proof using before_le behind_ge.
  induction 1 as [|y l Hs IH Hy]; simpl.
  - repeat constructor.
  - destruct (before x y) eqn:Hb.
    + constructor; [constructor; assumption|].
      constructor; [apply before_le; exact Hb|].
      eapply Forall_impl; [exact Hy|]. intros z Hz.
      eapply by_price_trans; [apply before_le; exact Hb|exact Hz].
    + constructor; [exact IH|].
      eapply Permutation_Forall; [symmetry; apply insert_by_perm|].
      constructor; [apply behind_ge; exact Hb|exact Hy].
Qed.

Lemma sort_by_sorts : sorts_by_price (sort_by before).
Proof using before_le behind_ge.
  intros l. induction l as [|x l [IHp IHs]]; simpl.
  - split; [reflexivity|constructor].
  - split.
    + rewrite insert_by_perm. constructor. exact IHp.
    + apply insert_by_sorted. exact IHs.
Qed.

End InsertionSort.

Lemma stable_sort_sorts : sorts_by_price stable_sort.
Proof.
  apply sort_by_sorts.
  - intros x y H. exact H.
  - intros x y H. unfold by_price.
    destruct (price_le_total (price x) (price y)) as [H'|H']; congruence.
Qed.

(** [stable_sort] keeps rows of equal price in table order. *)
Lemma stable_sort_keeps_ties (p : float64) (l : list RatedListing) :
  List.filter (fun r : RatedListing => same_price (price r) p) (stable_sort l)
  = List.filter (fun r : RatedListing => same_price (price r) p) l.
Proof.
  induction l as [|x l IH]; [reflexivity|].
  change (stable_sort (x :: l))
    with (insert_by (fun a b => price_le (price a) (price b)) x (stable_sort l)).
  change (List.filter (fun r : RatedListing => same_price (price r) p) (x :: l))
    with (if same_price (price x) p
          then x :: List.filter (fun r : RatedListing => same_price (price r) p) l
          else List.filter (fun r : RatedListing => same_price (price r) p) l).
  rewrite <- IH. clear IH. generalize (stable_sort l) as s. intros s.
  induction s as [|y s IHs]; [reflexivity|]. simpl.
  destruct (price_le (price x) (price y)) eqn:Hxy; [reflexivity|].
  simpl. rewrite IHs.
  destruct (same_price (price x) p) eqn:Hx; [|reflexivity].
  destruct (same_price (price y) p) eqn:Hy; [|reflexivity].
  exfalso. unfold same_price in Hx, Hy.
  apply andb_prop in Hx as [Hx _]. apply andb_prop in Hy as [_ Hy].
  rewrite (price_le_trans _ _ _ Hx Hy) in Hxy. discriminate.
Qed.

(** ** [most_affordable_airbnbs_page] *)

Lemma most_affordable_from_filter
    (sort_values : list RatedListing -> list RatedListing)
    (listings : list RatedListing) (selected_neighborhood : string) (r : RatedListing) :
  sorts_by_price sort_values ->
  In r (most_affordable_airbnbs_page sort_values listings selected_neighborhood) ->
  In r (filter_listings listings 0 200
          (if String.eqb selected_neighborhood "All" then None
           else Some selected_neighborhood)).
Proof.
  unfold most_affordable_airbnbs_page. intros Hsort Hr.
  destruct (Hsort (filter_listings listings 0 200
                     (if String.eqb selected_neighborhood "All" then None
                      else Some selected_neighborhood))) as [Hperm _].
  apply (Permutation_in _ Hperm).
  rewrite <- (take_drop 10 (sort_values _)). apply in_or_app. left. exact Hr.
Qed.

(** C3, as the code has it: for any routine that sorts by ascending price,
    the result is [filter_listings listings 0 200 neighborhood] sorted and
    cut to its first 10 rows; it has at most 10 rows, each with a price in
    [[0, 200]], in ascending order of price; it is a part of the filtered
    table, no row left out is cheaper than a returned one, and rows are
    left out only when 10 are returned.  The order among rows of equal
    price is left to the sorting routine. *)
Theorem most_affordable_cheapest_ten
    (sort_values : list RatedListing -> list RatedListing) :
  sorts_by_price sort_values ->
  forall (listings : list RatedListing) (selected_neighborhood : string),
    let candidates :=
      filter_listings listings 0 200
        (if String.eqb selected_neighborhood "All" then None
         else Some selected_neighborhood) in
    let result := most_affordable_airbnbs_page sort_values listings selected_neighborhood in
    result = take 10 (sort_values candidates)
    /\ Permutation (sort_values candidates) candidates
    /\ StronglySorted by_price (sort_values candidates)
    /\ (length result <= 10)%nat
    /\ (forall r, In r result -> in_price_range 0 200 r)
    /\ StronglySorted by_price result
    /\ exists rest,
         Permutation (result ++ rest) candidates
         /\ (forall a b, In a result -> In b rest -> by_price a b)
         /\ (rest <> [] -> length result = 10%nat).
Proof.
  intros Hsort listings sel candidates result.
  destruct (Hsort candidates) as [Hperm Hsorted].
  assert (Hres : result = take 10 (sort_values candidates)) by reflexivity.
  assert (Hsplit : result ++ drop 10 (sort_values candidates) = sort_values candidates)
    by (rewrite Hres; apply take_drop).
  split; [exact Hres|]. split; [exact Hperm|]. split; [exact Hsorted|].
  split; [rewrite Hres, length_take; lia|].
  split.
  { intros r Hr. apply most_affordable_from_filter in Hr; [|exact Hsort].
    apply filter_listings_has_price in Hr. tauto. }
  split.
  { rewrite <- Hsplit in Hsorted. apply StronglySorted_app_1_l in Hsorted. exact Hsorted. }
  exists (drop 10 (sort_values candidates)).
  split; [rewrite Hsplit; exact Hperm|].
  split.
  { intros a b Ha Hb. rewrite <- Hsplit in Hsorted.
    apply (StronglySorted_app_1_elem_of _ _ _ a b Hsorted); apply list_elem_of_In; assumption. }
  intros Hrest. rewrite Hres, length_take.
  assert (length (drop 10 (sort_values candidates)) <> 0)%nat
    by (destruct (drop 10 (sort_values candidates)); [congruence|simpl; lia]).
  rewrite length_drop in H. lia.
Qed.

Lemma most_affordable_cheapest_ten_witness :
  let candidates := filter_listings sample_cleaned 0 200 (Some "Fenway") in
  let result := most_affordable_airbnbs_page stable_sort sample_cleaned "Fenway" in
  result = take 10 (stable_sort candidates)
  /\ Permutation (stable_sort candidates) candidates
  /\ StronglySorted by_price (stable_sort candidates)
  /\ (length result <= 10)%nat
  /\ (forall r, In r result -> in_price_range 0 200 r)
  /\ StronglySorted by_price result
  /\ exists rest,
       Permutation (result ++ rest) candidates
       /\ (forall a b, In a result -> In b rest -> by_price a b)
       /\ (rest <> [] -> length result = 10%nat).
Proof.
  exact (most_affordable_cheapest_ten stable_sort stable_sort_sorts sample_cleaned "Fenway").
Defined.

Example most_affordable_sample :
  most_affordable_airbnbs_page stable_sort sample_cleaned "All" = [sample_suite; sample_loft].
Proof. vm_compute. reflexivity. Qed.

Example aquicksort_small :
  aquicksort [3; 1; 2] = Some [1; 2; 0]%nat
  /\ aquicksort [5; 5; 5; 5] = Some [0; 1; 2; 3]%nat
  /\ aquicksort [] = Some [].
Proof. repeat split; vm_compute; reflexivity. Qed.

(** C3 as stated fails on the order of equal prices: on a table of 300
    listings at the same price numpy's quicksort, which [sort_values]
    uses unless told otherwise, moves rows past each other, and the ten
    rows of the page are not the first ten rows of the table. *)
Lemma most_affordable_equal_prices_reordered :
  is_Some (sort_values_quicksort (filter_listings equal_price_table 0 200 None))
  /\ most_affordable_airbnbs_page sort_values_numpy equal_price_table "All"
     <> take 10 (stable_sort (filter_listings equal_price_table 0 200 None)).
Proof.
  split.
  - vm_compute. eexists. reflexivity.
  - vm_compute. intros H. discriminate H.
Qed.

(** C10: no row of the result of [filter_listings], and none of the table
    of the most-affordable page built on it, has a missing price, whatever
    the input table holds. *)
Theorem filtered_rows_have_price
    (sort_values : list RatedListing -> list RatedListing) :
  sorts_by_price sort_values ->
  forall (data : list RatedListing) (min_price max_price : Q)
         (neighborhood : option string) (selected_neighborhood : string),
    (forall r, In r (filter_listings data min_price max_price neighborhood) ->
               exists p, price r = fin p)
    /\ (forall r, In r (most_affordable_airbnbs_page sort_values data selected_neighborhood) ->
                  exists p, price r = fin p).
Proof.
  intros Hsort data lo hi nb sel. split.
  - intros r Hr. apply filter_listings_has_price in Hr as [_ (p & Hp & _)]. eauto.
  - intros r Hr. apply most_affordable_from_filter in Hr; [|exact Hsort].
    apply filter_listings_has_price in Hr as [_ (p & Hp & _)]. eauto.
Qed.

Lemma filtered_rows_have_price_witness :
  (forall r, In r (filter_listings sample_cleaned 0 1000 None) -> exists p, price r = fin p)
  /\ (forall r, In r (most_affordable_airbnbs_page stable_sort sample_cleaned "All") ->
                exists p, price r = fin p).
Proof.
  exact (filtered_rows_have_price stable_sort stable_sort_sorts sample_cleaned 0 1000 None "All").
Defined.

(** ** [top_rated_airbnbs_page] *)

Lemma high_rating_names_returns (t : list RatedListing) :
  (forall r, In r t -> is_Some (name r)) -> exists ns, high_rating_names t = Ok ns.
Proof.
  induction t as [|r t IH]; simpl; intros H; [eauto|].
  destruct (H r (or_introl eq_refl)) as [s ->].
  destruct IH as [ns ->]; [intros; apply H; auto|]. simpl. eauto.
Qed.

Lemma high_rating_names_raises (t : list RatedListing) (r : RatedListing) :
  In r t -> name r = None -> high_rating_names t = Raise TypeError.
Proof.
  induction t as [|r' t IH]; simpl; intros Hin Hn; [destruct Hin|].
  destruct Hin as [->|Hin]; [rewrite Hn; reflexivity|].
  destruct (name r'); [|reflexivity]. rewrite (IH Hin Hn). reflexivity.
Qed.

Lemma filter_twice {A : Type} (f g : A -> bool) (l : list A) :
  List.filter g (List.filter f l) = List.filter (fun x => f x && g x) l.
Proof.
  induction l as [|x l IH]; [reflexivity|]. simpl.
  destruct (f x); simpl; [|exact IH].
  destruct (g x); rewrite IH; reflexivity.
Qed.

Lemma isin_spec (c : option string) (selected : list string) :
  isin c selected = true <-> exists s, In s selected /\ c = Some s.
Proof.
  unfold isin. rewrite existsb_exists. split; intros (s & Hs & Hc); exists s.
  - apply nb_eq_spec in Hc. auto.
  - apply nb_eq_spec in Hc. auto.
Qed.

(** When every row that passes the rating test has a name, the page
    computes exactly the rows with rating >= min_rating, restricted to the
    selected neighbourhoods when some are selected, in table order. *)
Lemma top_rated_rows (listings : ListingsFrame) (min_rating : Q) (selected : list string) :
  (forall r, In r (ensure_rating listings) -> fge (rating r) min_rating = true ->
             is_Some (name r)) ->
  exists keep : RatedListing -> bool,
    snd (top_rated_airbnbs_page listings min_rating selected)
      = Ok (List.filter keep (ensure_rating listings))
    /\ forall r, keep r = true <->
         (exists t, rating r = fin t /\ min_rating <= t)
         /\ (selected <> [] -> exists s, In s selected /\ neighbourhood r = Some s).
Proof.
  intros Hnames. unfold top_rated_airbnbs_page. simpl.
  destruct (high_rating_names_returns
              (List.filter (fun r : RatedListing => fge (rating r) min_rating)
                           (ensure_rating listings))) as [ns ->].
  { intros r Hr. apply filter_In in Hr as [Hr Hge]. auto. }
  simpl. destruct selected as [|s0 sel].
  - eexists. split; [reflexivity|]. intros r. simpl. rewrite fge_spec.
    split; [intros H; split; [exact H|congruence]|tauto].
  - exists (fun r : RatedListing =>
              fge (rating r) min_rating && isin (neighbourhood r) (s0 :: sel)).
    split.
    + f_equal. apply filter_twice.
    + intros r. rewrite andb_true_iff, fge_spec, isin_spec.
      split; [intros [H1 H2]; split; [exact H1|intros _; exact H2]|].
      intros [H1 H2]. split; [exact H1|apply H2; discriminate].
Qed.

(** Raising the threshold narrows the result. *)
Lemma top_rated_narrows (listings : ListingsFrame) (r1 r2 : Q) (selected : list string)
    (t1 t2 : list RatedListing) :
  r2 <= r1 ->
  snd (top_rated_airbnbs_page listings r1 selected) = Ok t1 ->
  snd (top_rated_airbnbs_page listings r2 selected) = Ok t2 ->
  forall r, In r t1 -> In r t2.
Proof.
  unfold top_rated_airbnbs_page. simpl. intros Hle H1 H2 r Hr.
  destruct (high_rating_names _) as [n1|] in H1; [|discriminate].
  destruct (high_rating_names _) as [n2|] in H2; [|discriminate].
  simpl in H1, H2. inversion H1; subst t1; clear H1. inversion H2; subst t2; clear H2.
  assert (Hmono : forall x : RatedListing,
             fge (rating x) r1 = true -> fge (rating x) r2 = true).
  { intros x. rewrite !fge_spec. intros (t & Ht & Hmin). exists t. split; [exact Ht|lra]. }
  destruct selected as [|s0 sel].
  - apply filter_In in Hr as [Hr Hge]. apply filter_In. auto.
  - apply filter_In in Hr as [Hr Hsel]. apply filter_In in Hr as [Hr Hge].
    apply filter_In. split; [|exact Hsel]. apply filter_In. auto.
Qed.

(** C5 fails on a cleaned table with a nameless listing: the row has
    rating 5 >= 4.5, and the page raises [TypeError] at [len(name)]
    instead of returning it. *)
Theorem top_rated_raises_on_missing_name :
  clean decimal_number [nameless_raw] = Ok [nameless_row]
  /\ fge (rating nameless_row) (9 # 2) = true
  /\ snd (top_rated_airbnbs_page (WithRating [nameless_row]) (9 # 2) []) = Raise TypeError.
Proof. repeat split; vm_compute; reflexivity. Qed.

(** C6: on a table without the [rating] column the page writes
    [reviews_per_month * 5] as the rating, with no cap; for a row with
    reviews_per_month > 1 this rating is above 5, it is the value the
    rating test compares with [min_rating], and it differs from the
    cleaner's rating, which is 5. *)
Theorem defensive_rating_is_uncapped (rows : list Listing) (min_rating : Q)
    (selected : list string) (r : Listing) (q : Q) :
  In r rows -> reviews_per_month r = fin q -> 1 < q ->
  fst (top_rated_airbnbs_page (WithoutRating rows) min_rating selected)
    = WithRating (map add_rating rows)
  /\ In (add_rating r) (map add_rating rows)
  /\ rating (add_rating r) = fin (q * 5)
  /\ fge (rating (add_rating r)) min_rating = Qle_bool min_rating (q * 5)
  /\ 5 < q * 5
  /\ rating_lambda (CNum q) = Ok 5
  /\ ~ q * 5 == 5.
Proof.
  intros Hin Hrpm Hq.
  split; [reflexivity|]. split; [apply in_map; exact Hin|].
  assert (Hrt : rating (add_rating r) = fin (q * 5)) by (simpl; rewrite Hrpm; reflexivity).
  split; [exact Hrt|]. split; [rewrite Hrt; reflexivity|].
  split; [lra|]. split; [|lra].
  simpl. destruct (Qle_bool (q * 5) 5) eqn:Hle; [|reflexivity].
  apply Qle_bool_iff in Hle. lra.
Qed.

Lemma defensive_rating_is_uncapped_witness :
  fst (top_rated_airbnbs_page (WithoutRating [busy_listing]) (9 # 2) [])
    = WithRating (map add_rating [busy_listing])
  /\ In (add_rating busy_listing) (map add_rating [busy_listing])
  /\ rating (add_rating busy_listing) = fin (2 * 5)
  /\ fge (rating (add_rating busy_listing)) (9 # 2) = Qle_bool (9 # 2) (2 * 5)
  /\ 5 < 2 * 5
  /\ rating_lambda (CNum 2) = Ok 5
  /\ ~ 2 * 5 == 5.
Proof.
  apply (defensive_rating_is_uncapped [busy_listing] (9 # 2) [] busy_listing 2).
  - simpl. left. reflexivity.
  - reflexivity.
  - reflexivity.
Defined.

(** The page leaves a table that has the [rating] column as it is. *)
Lemma top_rated_keeps_rated_table (rows : list RatedListing) (min_rating : Q)
    (selected : list string) :
  fst (top_rated_airbnbs_page (WithRating rows) min_rating selected) = WithRating rows.
Proof. reflexivity. Qed.

(** On a table without the [rating] column, which [main] never passes, the
    page adds the column to the caller's table. *)
Theorem top_rated_adds_rating_column :
  fst (top_rated_airbnbs_page (WithoutRating [busy_listing]) (9 # 2) [])
    = WithRating [add_rating busy_listing]
  /\ WithRating [add_rating busy_listing] <> WithoutRating [busy_listing].
Proof. split; [reflexivity|discriminate]. Qed.

(** ** [load_data] *)

(** A returned tuple holds four tables or none. *)
Lemma load_data_never_partial (parse : string -> option Q) (src : Sources)
    (log : list string) (t : Tables) :
  load_data parse src = (log, Ok t) ->
  (t = no_tables /\ log <> [])
  \/ (exists l n rv rs, t = (Some l, Some n, Some rv, Some rs) /\ log = []).
Proof.
  unfold load_data.
  destruct (read_sources src) as [[[[l n] rv] rs]|e].
  - destruct (clean parse l) as [c|e]; intros H; inversion H; subst.
    right. eauto 10.
  - destruct e; intros H; inversion H; subst; left; split; auto; discriminate.
Qed.

Example load_data_missing_restaurants :
  load_data decimal_number sources_without_restaurants
  = (["File not found: restaurants.xlsx"], Ok no_tables).
Proof. reflexivity. Qed.

(** C9 fails when the content of [restaurants.xlsx] does not parse:
    [pd.read_excel] raises [ValueError], neither [except] clause catches
    it, and [load_data] returns no tuple and sends no message to
    [st.error]. *)
Theorem load_data_escapes_on_malformed_excel :
  load_data decimal_number sources_malformed_excel
  = ([], Raise (OtherError "ValueError: Excel file format cannot be determined")).
Proof. reflexivity. Qed.

(** ** [price_distribution_page] *)

Lemma groupby_lookup (rows : list RatedListing) (n : string) :
  groupby_neighbourhood rows !! n
  = match List.filter (fun r : RatedListing => nb_eq (neighbourhood r) n) rows with
    | [] => None
    | rs => Some (map (fun r : RatedListing => price r) rs)
    end.
Proof.
  induction rows as [|r rows IH]; simpl; [apply lookup_empty|].
  fold (groupby_neighbourhood rows).
  destruct (neighbourhood r) as [m|] eqn:Hm; simpl; [|exact IH].
  destruct (String.eqb m n) eqn:Hmn.
  - apply String.eqb_eq in Hmn. subst m. rewrite lookup_insert_eq, IH.
    destruct (List.filter _ rows); reflexivity.
  - apply String.eqb_neq in Hmn. rewrite lookup_insert_ne by exact Hmn. exact IH.
Qed.

(** The pivot table of any table: a neighbourhood is a key when one of
    its rows has a price, and its value is the mean of the prices its
    rows have. *)
Lemma pivot_table_lookup (rows : list RatedListing) (n : string) :
  pivot_table rows !! n
  = match present (map (fun r : RatedListing => price r)
                       (List.filter (fun r : RatedListing => nb_eq (neighbourhood r) n) rows)) with
    | [] => None
    | vs => Some (Qsum vs / inject_Z (Z.of_nat (length vs)))
    end.
Proof.
  unfold pivot_table. rewrite lookup_omap, groupby_lookup.
  destruct (List.filter _ rows) as [|r rs]; [reflexivity|].
  unfold mbind, option_bind, mean.
  destruct (present _); reflexivity.
Qed.

Lemma present_all (l : list float64) :
  (forall x, In x l -> exists p, x = fin p) -> l = map fin (present l).
Proof.
  induction l as [|x l IH]; simpl; intros H; [reflexivity|].
  destruct (H x (or_introl eq_refl)) as [p ->]. simpl. f_equal.
  apply IH. intros; apply H; auto.
Qed.

Lemma filtered_data_has_price (listings : list RatedListing) (neighborhood : string)
    (price_range : Q * Q) (r : RatedListing) :
  In r (filtered_data listings neighborhood price_range) -> exists p, price r = fin p.
Proof.
  unfold filtered_data. intros Hin.
  destruct (String.eqb neighborhood "All"); apply filter_In in Hin as [_ Hk];
    apply andb_prop in Hk as [Hk _].
  - apply fge_spec in Hk as (p & Hp & _). eauto.
  - apply andb_prop in Hk as [_ Hk]. apply fge_spec in Hk as (p & Hp & _). eauto.
Qed.

(** [rint] is a nearest integer. *)
Lemma rint_nearest (q : Q) :
  inject_Z (rint q) - q <= 1 # 2 /\ q - inject_Z (rint q) <= 1 # 2.
Proof.
  unfold rint. pose proof (Qfloor_le q) as Hlo. pose proof (Qlt_floor q) as Hhi.
  rewrite inject_Z_plus in Hhi. change (inject_Z 1) with 1 in Hhi.
  destruct (Qcompare (q - inject_Z (Qfloor q)) (1 # 2)) eqn:Hc.
  - apply Qeq_alt in Hc.
    destruct (Z.even (Qfloor q)); [|rewrite inject_Z_plus; change (inject_Z 1) with 1];
      split; lra.
  - apply Qlt_alt in Hc. split; lra.
  - apply Qgt_alt in Hc. rewrite inject_Z_plus. change (inject_Z 1) with 1. split; lra.
Qed.

(** [round2 q] is a multiple of 1/100 at distance at most 1/200 of [q]. *)
Lemma round2_nearest_hundredth (q : Q) :
  exists z : Z, round2 q == inject_Z z / 100
    /\ round2 q - q <= 1 # 200 /\ q - round2 q <= 1 # 200.
Proof.
  exists (rint (q * 100)). unfold round2.
  pose proof (Qred_correct (inject_Z (rint (q * 100)) / 100)) as Hred.
  destruct (rint_nearest (q * 100)) as [H1 H2].
  split; [exact Hred|]. rewrite Hred.
  split; apply Qmult_le_r with (z := 100); try reflexivity; field_simplify; lra.
Qed.

Lemma Zle_of_half (a b : Z) : inject_Z a <= inject_Z b + (1 # 2) -> (a <= b)%Z.
Proof.
  intros H. destruct (Z.le_gt_cases a b) as [Hle|Hgt]; [exact Hle|exfalso].
  assert (Hz : (b + 1 <= a)%Z) by lia.
  rewrite Zle_Qle, inject_Z_plus in Hz. change (inject_Z 1) with 1 in Hz. lra.
Qed.

(** Two multiples of 1/100 at distance at most 1/200 of each other are
    equal. *)
Lemma hundredth_unique (v m : Q) (a b : Z) :
  v == inject_Z a / 100 -> m == inject_Z b / 100 ->
  v - m <= 1 # 200 -> m - v <= 1 # 200 -> v == m.
Proof.
  intros Hv Hm H1 H2. rewrite Hv, Hm in *.
  assert (Ha : inject_Z a <= inject_Z b + (1 # 2)).
  { apply Qmult_le_r with (z := 1 # 100); [reflexivity|].
    unfold Qdiv in H1. change (/ 100) with (1 # 100) in H1. lra. }
  assert (Hb : inject_Z b <= inject_Z a + (1 # 2)).
  { apply Qmult_le_r with (z := 1 # 100); [reflexivity|].
    unfold Qdiv in H2. change (/ 100) with (1 # 100) in H2. lra. }
  apply Zle_of_half in Ha. apply Zle_of_half in Hb.
  assert (a = b) by lia. subst. reflexivity.
Qed.

(** C8: the aggregation, [pd.pivot_table(...).round(2)], on any table.  A
    neighbourhood is a key exactly when one of its rows has a price;
    when every row has a price, as in every table the page passes, that
    is exactly when the table has a row of it.  Its value is a multiple
    of 1/100 at distance at most 1/200 of the arithmetic mean of the
    prices of its rows, and is that mean when the mean is itself a
    multiple of 1/100; a single row priced 100 gives 100. *)
Theorem neighbourhood_mean_price (rows : list RatedListing) (n : string) :
  let prices_n :=
    present (map (fun r : RatedListing => price r)
               (List.filter (fun r : RatedListing => nb_eq (neighbourhood r) n) rows)) in
  let mean_n := Qsum prices_n / inject_Z (Z.of_nat (length prices_n)) in
  let price_pivot := round2 <$> pivot_table rows in
  (is_Some (price_pivot !! n) <-> prices_n <> [])
  /\ ((forall r, In r rows -> exists p, price r = fin p) ->
      (is_Some (price_pivot !! n) <-> exists r, In r rows /\ neighbourhood r = Some n))
  /\ (forall v, price_pivot !! n = Some v ->
        (exists k : Z, v == inject_Z k / 100)
        /\ v - mean_n <= 1 # 200 /\ mean_n - v <= 1 # 200
        /\ ((exists k : Z, mean_n == inject_Z k / 100) -> v == mean_n))
  /\ (prices_n = [100] -> price_pivot !! n = Some 100)
  /\ (forall listings neighborhood price_range,
        rows = filtered_data listings neighborhood price_range ->
        price_pivot = price_distribution_page listings neighborhood price_range
        /\ (is_Some (price_pivot !! n) <->
            exists r, In r rows /\ neighbourhood r = Some n)).
Proof.
  cbv zeta.
  set (rows_n := List.filter (fun r : RatedListing => nb_eq (neighbourhood r) n) rows).
  remember (present (map (fun r : RatedListing => price r) rows_n)) as prices_n eqn:Epn.
  assert (Hlook : (round2 <$> pivot_table rows) !! n
                  = match prices_n with
                    | [] => None
                    | _ => Some (round2 (Qsum prices_n / inject_Z (Z.of_nat (length prices_n))))
                    end).
  { rewrite lookup_fmap, pivot_table_lookup. fold rows_n. rewrite <- Epn.
    destruct prices_n; reflexivity. }
  assert (Hkey : is_Some ((round2 <$> pivot_table rows) !! n) <-> prices_n <> []).
  { rewrite Hlook. destruct prices_n as [|p ps].
    - split; [intros [v Hv]; discriminate Hv|congruence].
    - split; [discriminate|intros _; eexists; reflexivity]. }
  assert (Hpriced : (forall r, In r rows -> exists p, price r = fin p) ->
                    (is_Some ((round2 <$> pivot_table rows) !! n) <->
                     exists r, In r rows /\ neighbourhood r = Some n)).
  { intros Hall. rewrite Hkey.
    assert (Hps : map (fun r : RatedListing => price r) rows_n = map fin prices_n).
    { rewrite Epn. apply present_all. intros x Hx. apply in_map_iff in Hx as (r & <- & Hr).
      apply filter_In in Hr as [Hr _]. auto. }
    split.
    - intros Hne. destruct rows_n as [|r rs] eqn:Hrows.
      + simpl in Hps. destruct prices_n; [congruence|discriminate Hps].
      + exists r. assert (Hr : In r rows_n) by (rewrite Hrows; left; reflexivity).
        apply filter_In in Hr as [Hr Hnb]. apply nb_eq_spec in Hnb. auto.
    - intros (r & Hr & Hnb) Hnil.
      assert (Hin : In r rows_n)
        by (apply filter_In; split; [exact Hr|apply nb_eq_spec; exact Hnb]).
      rewrite Hnil in Hps. destruct rows_n; [destruct Hin|discriminate Hps]. }
  split; [exact Hkey|]. split; [exact Hpriced|]. split; [|split].
  - intros v Hv. rewrite Hlook in Hv.
    destruct prices_n as [|p ps] eqn:Hpn; [discriminate|].
    injection Hv as <-.
    destruct (round2_nearest_hundredth
                (Qsum (p :: ps) / inject_Z (Z.of_nat (length (p :: ps)))))
      as (z & Hz & Hup & Hdown).
    split; [exists z; exact Hz|]. split; [exact Hup|]. split; [exact Hdown|].
    intros [k Hk]. apply (hundredth_unique _ _ z k); assumption.
  - intros H100. rewrite Hlook, H100. vm_compute. reflexivity.
  - intros listings neighborhood price_range Hrows. split.
    + unfold price_distribution_page. rewrite Hrows. reflexivity.
    + apply Hpriced. intros r Hr. rewrite Hrows in Hr.
      apply filtered_data_has_price in Hr. exact Hr.
Qed.

Lemma neighbourhood_mean_price_witness :
  let prices_n :=
    present (map (fun r : RatedListing => price r)
               (List.filter (fun r : RatedListing => nb_eq (neighbourhood r) "Fenway")
                  sample_cleaned)) in
  let mean_n := Qsum prices_n / inject_Z (Z.of_nat (length prices_n)) in
  let price_pivot := round2 <$> pivot_table sample_cleaned in
  (is_Some (price_pivot !! "Fenway") <-> prices_n <> [])
  /\ ((forall r, In r sample_cleaned -> exists p, price r = fin p) ->
      (is_Some (price_pivot !! "Fenway") <->
       exists r, In r sample_cleaned /\ neighbourhood r = Some "Fenway"))
  /\ (forall v, price_pivot !! "Fenway" = Some v ->
        (exists k : Z, v == inject_Z k / 100)
        /\ v - mean_n <= 1 # 200 /\ mean_n - v <= 1 # 200
        /\ ((exists k : Z, mean_n == inject_Z k / 100) -> v == mean_n))
  /\ (prices_n = [100] -> price_pivot !! "Fenway" = Some 100)
  /\ (forall listings neighborhood price_range,
        sample_cleaned = filtered_data listings neighborhood price_range ->
        price_pivot = price_distribution_page listings neighborhood price_range
        /\ (is_Some (price_pivot !! "Fenway") <->
            exists r, In r sample_cleaned /\ neighbourhood r = Some "Fenway")).
Proof.
  exact (neighbourhood_mean_price sample_cleaned "Fenway").
Defined.

Example price_pivot_single_listing :
  price_distribution_page hundred_table "All" (50, 300) !! "Roxbury" = Some 100
  /\ price_distribution_page hundred_table "All" (50, 300) !! "Fenway" = None.
Proof. split; vm_compute; reflexivity. Qed.

Example price_pivot_sample :
  price_distribution_page sample_cleaned "All" (50, 300) !! "Fenway" = Some (191 # 2)
  /\ price_distribution_page sample_cleaned "Back Bay" (50, 300) !! "Back Bay" = Some 150
  /\ pivot_table sample_cleaned !! "Fenway" = Some (191 # 2)
  /\ pivot_table [sample_harbour] !! "Fenway" = None.
Proof. repeat split; vm_compute; reflexivity. Qed.

(** ** [restaurant_page] *)

(** With both selectors on ["All"] the page shows the whole catalogue. *)
Lemma restaurant_page_all (restaurants : list Restaurant) :
  restaurant_page restaurants "All" "All" = restaurants.
Proof. reflexivity. Qed.


(** * Further properties of the code *)

(** ** The cleaner and the loader *)

Lemma mapM_Forall2 {A B : Type} (f : A -> outcome B) (l : list A) (l' : list B) :
  mapM f l = Ok l' -> Forall2 (fun a b => f a = Ok b) l l'.
Proof.
  revert l'. induction l as [|a l IH]; simpl; intros l' H.
  - inversion H. constructor.
  - destruct (f a) as [b|e] eqn:Hfa; simpl in H; [|discriminate].
    destruct (mapM f l) as [bs|e] eqn:Hl; simpl in H; [|discriminate].
    inversion H; subst. constructor; auto.
Qed.

Lemma mapM_raises {A B : Type} (f : A -> outcome B) (l : list A) (e : exn) :
  (forall a e', In a l -> f a = Raise e' -> e' = e) ->
  (exists a, In a l /\ f a = Raise e) -> mapM f l = Raise e.
Proof.
  induction l as [|a l IH]; simpl; intros Honly (x & Hx & Hfx); [destruct Hx|].
  destruct (f a) as [b|e'] eqn:Hfa; simpl.
  - destruct Hx as [->|Hx]; [congruence|].
    rewrite IH; [reflexivity| |eauto]. intros a' e'' Ha'. apply Honly. auto.
  - f_equal. apply (Honly a); auto.
Qed.

Lemma clean_row_raises (parse : string -> option Q) (x : RawListing) (e : exn) :
  clean_row parse x = Raise e <-> e = TypeError /\ exists s, raw_reviews_per_month x = CStr s.
Proof.
  unfold clean_row. destruct (raw_reviews_per_month x) as [|q|s]; simpl.
  - split; [discriminate|]. intros [_ [s Hs]]. discriminate.
  - split; [discriminate|]. intros [_ [s Hs]]. discriminate.
  - split; [intros H; inversion H; eauto|]. intros [-> _]. reflexivity.
Qed.

Lemma clean_rows_aligned (parse : string -> option Q)
    (xs : list RawListing) (rs : list RatedListing) :
  Forall2 (fun x r => clean_row parse x = Ok r) xs rs ->
  map (fun r : RatedListing => name r) rs = map raw_name xs
  /\ map (fun r : RatedListing => neighbourhood r) rs = map raw_neighbourhood xs
  /\ length rs = length xs.
Proof.
  induction 1 as [|x r xs rs Hxr _ IH]; [auto|].
  destruct IH as (IH1 & IH2 & IH3).
  destruct (clean_row_Ok _ _ _ Hxr) as (q & _ & _ & _ & Hn & Hnb & _).
  simpl. split; [|split]; congruence.
Qed.

(** The cleaned table has one row per input row that passes the null
    check, in file order, with the name and the neighbourhood of that
    row; so it is no longer than the input, and every one of its rows has
    a neighbourhood. *)
Theorem clean_keeps_kept_rows (parse : string -> option Q)
    (raw : list RawListing) (cleaned : list RatedListing) :
  clean parse raw = Ok cleaned ->
  map (fun r : RatedListing => name r) cleaned = map raw_name (dropna raw)
  /\ map (fun r : RatedListing => neighbourhood r) cleaned
     = map raw_neighbourhood (dropna raw)
  /\ (length cleaned <= length raw)%nat
  /\ forall r, In r cleaned -> is_Some (neighbourhood r).
Proof.
  intros Hc. pose proof (mapM_Forall2 _ _ _ Hc) as HF.
  assert (Hnames : map (fun r : RatedListing => name r) cleaned = map raw_name (dropna raw)
                   /\ map (fun r : RatedListing => neighbourhood r) cleaned
                      = map raw_neighbourhood (dropna raw)
                   /\ length cleaned = length (dropna raw)).
  { apply clean_rows_aligned with (parse := parse). exact HF. }
  destruct Hnames as (H1 & H2 & H3).
  split; [exact H1|]. split; [exact H2|]. split.
  - rewrite H3. unfold dropna. apply filter_length_le.
  - intros r Hr. destruct (clean_rows_from_raw _ _ _ _ Hc Hr) as (x & _ & Hk & Hxr).
    destruct (clean_row_Ok _ _ _ Hxr) as (q & _ & _ & _ & _ & Hnb & _).
    rewrite Hnb. unfold dropna_keep in Hk.
    apply andb_prop in Hk as [Hk _]. apply andb_prop in Hk as [_ Hk].
    apply bool_decide_eq_true in Hk. exact Hk.
Qed.

Lemma clean_keeps_kept_rows_witness :
  map (fun r : RatedListing => name r) sample_cleaned = map raw_name (dropna sample_raw)
  /\ map (fun r : RatedListing => neighbourhood r) sample_cleaned
     = map raw_neighbourhood (dropna sample_raw)
  /\ (length sample_cleaned <= length sample_raw)%nat
  /\ forall r, In r sample_cleaned -> is_Some (neighbourhood r).
Proof.
  apply (clean_keeps_kept_rows decimal_number sample_raw sample_cleaned).
  vm_compute. reflexivity.
Defined.

(** The cleaner raises [TypeError] exactly when a row that passes the null
    check holds a text in [reviews_per_month]; otherwise it returns a
    table. *)
Theorem clean_raises_iff_text_reviews (parse : string -> option Q) (raw : list RawListing) :
  (clean parse raw = Raise TypeError <->
   exists x s, In x raw /\ dropna_keep x = true /\ raw_reviews_per_month x = CStr s)
  /\ (clean parse raw = Raise TypeError \/ exists cleaned, clean parse raw = Ok cleaned).
Proof.
  assert (Hdec : (exists x s, In x raw /\ dropna_keep x = true
                              /\ raw_reviews_per_month x = CStr s)
                 \/ forall x s, In x raw -> dropna_keep x = true ->
                                raw_reviews_per_month x <> CStr s).
  { induction raw as [|x raw IH]; [right; intros x s []|].
    destruct IH as [(y & s & Hy & Hk & Hs)|IH]; [left; exists y, s; simpl; auto|].
    destruct (dropna_keep x) eqn:Hk.
    - destruct (raw_reviews_per_month x) as [|q|s] eqn:Hs.
      + right. intros y s' [<-|Hy] Hk'; [congruence|eauto].
      + right. intros y s' [<-|Hy] Hk'; [congruence|eauto].
      + left. exists x, s. simpl. auto.
    - right. intros y s' [<-|Hy] Hk'; [congruence|eauto]. }
  assert (Hraise : (exists x s, In x raw /\ dropna_keep x = true
                                /\ raw_reviews_per_month x = CStr s)
                   -> clean parse raw = Raise TypeError).
  { intros (x & s & Hx & Hk & Hs). unfold clean. apply mapM_raises.
    - intros a e' _ Ha. apply clean_row_raises in Ha. tauto.
    - exists x. split; [apply filter_In; auto|].
      apply clean_row_raises. eauto. }
  split.
  - split; [|exact Hraise]. intros Hr.
    destruct Hdec as [H|H]; [exact H|].
    destruct (clean_returns parse raw H) as [c Hc]. congruence.
  - destruct Hdec as [H|H]; [left; auto|right; apply clean_returns; exact H].
Qed.

Example clean_text_reviews :
  clean decimal_number (sample_raw ++ [text_rpm_raw]) = Raise TypeError.
Proof. vm_compute. reflexivity. Qed.

(** When the four sources load and no row that passes the null check
    holds a text in [reviews_per_month], [load_data] returns the cleaned
    listings together with the other three tables exactly as read, and
    sends nothing to [st.error]. *)
Theorem load_data_returns_tables (parse : string -> option Q) (src : Sources)
    (l : list RawListing) (n : Neighbourhoods) (rv : Reviews) (rs : list Restaurant) :
  listings_csv src = Ok l -> neighbourhoods_csv src = Ok n ->
  reviews_csv src = Ok rv -> restaurants_xlsx src = Ok rs ->
  (forall x s, In x l -> dropna_keep x = true -> raw_reviews_per_month x <> CStr s) ->
  exists cleaned,
    clean parse l = Ok cleaned
    /\ load_data parse src = ([], Ok (Some cleaned, Some n, Some rv, Some rs)).
Proof.
  intros H1 H2 H3 H4 Hrpm. destruct (clean_returns parse l Hrpm) as [cleaned Hc].
  exists cleaned. split; [exact Hc|].
  unfold load_data, read_sources. rewrite H1, H2, H3, H4. simpl. rewrite Hc. reflexivity.
Qed.

Lemma load_data_returns_tables_witness :
  exists cleaned,
    clean decimal_number sample_raw = Ok cleaned
    /\ load_data decimal_number sample_sources
       = ([], Ok (Some cleaned, Some ["Back Bay"; "Fenway"], Some [], Some sample_restaurants)).
Proof.
  apply (load_data_returns_tables decimal_number sample_sources sample_raw
           ["Back Bay"; "Fenway"] [] sample_restaurants);
    try reflexivity.
  intros x s Hx _ Hs. simpl in Hx.
  destruct Hx as [<-|[<-|[<-|[<-|[]]]]]; discriminate Hs.
Defined.

(** The first source that does not load decides the call, whatever the
    later sources would do: a [FileNotFoundError] or a [ParserError] gives
    the four [None] and one message; any other exception leaves
    [load_data] uncaught, with no message. *)
Theorem load_data_first_failure (parse : string -> option Q) (src : Sources) (e : exn) :
  first_failure src e ->
  load_data parse src
  = match e with
    | FileNotFoundError m => ([String.append "File not found: " m], Ok no_tables)
    | ParserError m =>
        ([String.append "Error parsing CSV or Excel files: " m], Ok no_tables)
    | _ => ([], Raise e)
    end.
Proof.
  unfold first_failure, loaded, load_data, read_sources.
  intros [H1|[([l Hl] & H2)|[([l Hl] & [n Hn] & H3)|([l Hl] & [n Hn] & [rv Hrv] & H4)]]].
  - rewrite H1. destruct e; reflexivity.
  - rewrite Hl, H2. destruct e; reflexivity.
  - rewrite Hl, Hn, H3. destruct e; reflexivity.
  - rewrite Hl, Hn, Hrv, H4. destruct e; reflexivity.
Qed.

Lemma load_data_first_failure_witness :
  load_data decimal_number sources_permission_denied
  = ([], Raise (OtherError "PermissionError")).
Proof.
  apply (load_data_first_failure decimal_number sources_permission_denied
           (OtherError "PermissionError")).
  unfold first_failure, loaded. simpl. right. left. split; [eexists|]; reflexivity.
Defined.

(** When the four sources load and a row that passes the null check holds
    a text in [reviews_per_month], [load_data] does not return: the
    [TypeError] of the rating lambda escapes, and nothing is sent to
    [st.error]. *)
Theorem load_data_raises_on_text_reviews (parse : string -> option Q) (src : Sources)
    (l : list RawListing) (x : RawListing) (s : string) :
  listings_csv src = Ok l -> loaded (neighbourhoods_csv src) ->
  loaded (reviews_csv src) -> loaded (restaurants_xlsx src) ->
  In x l -> dropna_keep x = true -> raw_reviews_per_month x = CStr s ->
  load_data parse src = ([], Raise TypeError).
Proof.
  intros H1 [n H2] [rv H3] [rs H4] Hx Hk Hs.
  assert (Hc : clean parse l = Raise TypeError).
  { unfold clean. apply mapM_raises.
    - intros a e' _ Ha. apply clean_row_raises in Ha. tauto.
    - exists x. split; [apply filter_In; auto|]. apply clean_row_raises. eauto. }
  unfold load_data, read_sources. rewrite H1, H2, H3, H4. simpl. rewrite Hc. reflexivity.
Qed.

Lemma load_data_raises_on_text_reviews_witness :
  load_data decimal_number
    {| listings_csv := Ok (sample_raw ++ [text_rpm_raw]);
       neighbourhoods_csv := Ok ["Fenway"];
       reviews_csv := Ok [];
       restaurants_xlsx := Ok sample_restaurants |}
  = ([], Raise TypeError).
Proof.
  apply (load_data_raises_on_text_reviews decimal_number _ (sample_raw ++ [text_rpm_raw])
           text_rpm_raw "n/a").
  - reflexivity.
  - eexists. reflexivity.
  - eexists. reflexivity.
  - eexists. reflexivity.
  - apply in_or_app. right. left. reflexivity.
  - reflexivity.
  - reflexivity.
Defined.

(** ** The price filters *)

Lemma price_between_meet (lo hi lo' hi' : Q) (r : RatedListing) :
  price_between lo hi r && price_between lo' hi' r
  = price_between (Qmax lo lo') (Qmin hi hi') r.
Proof.
  unfold price_between, fge, fle. destruct (price r) as [|p]; [reflexivity|].
  apply eq_true_iff_eq.
  rewrite !andb_true_iff, !Qle_bool_iff, Q.max_lub_iff, Q.min_glb_iff. tauto.
Qed.

(** An empty price range selects nothing. *)
Theorem filter_listings_empty_range (data : list RatedListing) (min_price max_price : Q)
    (neighborhood : option string) :
  max_price < min_price -> filter_listings data min_price max_price neighborhood = [].
Proof.
  intros Hlt.
  assert (Hnone : forall r : RatedListing, price_between min_price max_price r = false).
  { intros r. unfold price_between, fge, fle. destruct (price r) as [|p]; [reflexivity|].
    apply not_true_is_false. rewrite andb_true_iff, !Qle_bool_iff. lra. }
  unfold filter_listings. destruct (truthy neighborhood).
  - induction data as [|r data IH]; [reflexivity|]. simpl. rewrite Hnone. exact IH.
  - induction data as [|r data IH]; [reflexivity|]. simpl. rewrite Hnone. exact IH.
Qed.

Lemma filter_listings_empty_range_witness :
  filter_listings sample_cleaned 200 100 (Some "Fenway") = [].
Proof. apply (filter_listings_empty_range sample_cleaned 200 100 (Some "Fenway")). reflexivity. Defined.

(** Filtering a filtered table again, for the same neighbourhood, is
    filtering once with the intersection of the two price ranges; in
    particular filtering twice with the same arguments changes nothing. *)
Theorem filter_listings_twice (data : list RatedListing) (lo hi lo' hi' : Q)
    (neighborhood : option string) :
  filter_listings (filter_listings data lo hi neighborhood) lo' hi' neighborhood
  = filter_listings data (Qmax lo lo') (Qmin hi hi') neighborhood
  /\ filter_listings (filter_listings data lo hi neighborhood) lo hi neighborhood
     = filter_listings data lo hi neighborhood.
Proof.
  assert (Hmeet : forall a b a' b',
             filter_listings (filter_listings data a b neighborhood) a' b' neighborhood
             = filter_listings data (Qmax a a') (Qmin b b') neighborhood).
  { intros a b a' b'. unfold filter_listings. destruct (truthy neighborhood).
    - rewrite filter_twice. apply filter_ext. intros r.
      rewrite <- price_between_meet.
      destruct (price_between a b r), (price_between a' b' r),
        (nb_eq_arg (neighbourhood r) neighborhood); reflexivity.
    - rewrite filter_twice. apply filter_ext. intros r. apply price_between_meet. }
  split; [apply Hmeet|]. rewrite Hmeet.
  unfold filter_listings.
  assert (Hsame : forall r : RatedListing,
             price_between (Qmax lo lo) (Qmin hi hi) r = price_between lo hi r).
  { intros r. rewrite <- price_between_meet. apply andb_diag. }
  destruct (truthy neighborhood); apply filter_ext; intros r; rewrite Hsame; reflexivity.
Qed.

Lemma filter_listings_neighbourhood (data : list RatedListing) (lo hi : Q)
    (s : string) (r : RatedListing) :
  s <> "" -> In r (filter_listings data lo hi (Some s)) -> neighbourhood r = Some s.
Proof.
  intros Hs. unfold filter_listings.
  assert (Ht : truthy (Some s) = true) by (apply truthy_spec; eauto).
  rewrite Ht. intros Hin. apply filter_In in Hin as [_ Hk].
  apply andb_prop in Hk as [_ Hk]. apply nb_eq_spec in Hk. exact Hk.
Qed.

(** The filter written out in the price page selects the same rows as
    [filter_listings] called the way the most-affordable page calls it
    (["All"] turned into [None]), for every selection but the empty
    text. *)
Theorem filtered_data_is_filter_listings (listings : list RatedListing)
    (neighborhood : string) (lo hi : Q) :
  neighborhood <> "" ->
  filtered_data listings neighborhood (lo, hi)
  = filter_listings listings lo hi
      (if String.eqb neighborhood "All" then None else Some neighborhood).
Proof.
  intros Hne. unfold filtered_data, filter_listings. simpl fst. simpl snd.
  destruct (String.eqb neighborhood "All"); [reflexivity|].
  assert (Ht : truthy (Some neighborhood) = true) by (apply truthy_spec; eauto).
  rewrite Ht. apply filter_ext. intros r. unfold price_between. simpl.
  destruct (nb_eq (neighbourhood r) neighborhood), (fge (price r) lo), (fle (price r) hi);
    reflexivity.
Qed.

Lemma filtered_data_is_filter_listings_witness :
  filtered_data sample_cleaned "Fenway" (50, 300)
  = filter_listings sample_cleaned 50 300
      (if String.eqb "Fenway" "All" then None else Some "Fenway").
Proof.
  apply (filtered_data_is_filter_listings sample_cleaned "Fenway" 50 300). discriminate.
Defined.

Example filtered_data_empty_text :
  filtered_data sample_cleaned "" (50, 300) = []
  /\ filter_listings sample_cleaned 50 300 (Some "") = [sample_loft; sample_suite].
Proof. split; vm_compute; reflexivity. Qed.

(** ** The most-affordable page *)

(** The page shows 10 rows, or all the rows that pass the filter when
    these are fewer. *)
Theorem most_affordable_length
    (sort_values : list RatedListing -> list RatedListing)
    (listings : list RatedListing) (selected_neighborhood : string) :
  sorts_by_price sort_values ->
  length (most_affordable_airbnbs_page sort_values listings selected_neighborhood)
  = Nat.min 10 (length (filter_listings listings 0 200
                          (if String.eqb selected_neighborhood "All" then None
                           else Some selected_neighborhood))).
Proof.
  intros Hsort. unfold most_affordable_airbnbs_page. rewrite length_take.
  destruct (Hsort (filter_listings listings 0 200
                     (if String.eqb selected_neighborhood "All" then None
                      else Some selected_neighborhood))) as [Hperm _].
  rewrite (Permutation_length Hperm). reflexivity.
Qed.

Lemma most_affordable_length_witness :
  length (most_affordable_airbnbs_page stable_sort sample_cleaned "All")
  = Nat.min 10 (length (filter_listings sample_cleaned 0 200
                          (if String.eqb "All" "All" then None else Some "All"))).
Proof. exact (most_affordable_length stable_sort sample_cleaned "All" stable_sort_sorts). Defined.

(** When a neighbourhood is selected, every row shown is of that
    neighbourhood. *)
Theorem most_affordable_neighbourhood
    (sort_values : list RatedListing -> list RatedListing)
    (listings : list RatedListing) (selected_neighborhood : string) (r : RatedListing) :
  sorts_by_price sort_values ->
  selected_neighborhood <> "All" -> selected_neighborhood <> "" ->
  In r (most_affordable_airbnbs_page sort_values listings selected_neighborhood) ->
  neighbourhood r = Some selected_neighborhood.
Proof.
  intros Hsort Hall Hempty Hin.
  apply most_affordable_from_filter in Hin; [|exact Hsort].
  apply String.eqb_neq in Hall. rewrite Hall in Hin.
  apply filter_listings_neighbourhood in Hin; assumption.
Qed.

Lemma most_affordable_neighbourhood_witness :
  neighbourhood sample_suite = Some "Fenway".
Proof.
  apply (most_affordable_neighbourhood stable_sort sample_cleaned "Fenway" sample_suite
           stable_sort_sorts).
  - discriminate.
  - discriminate.
  - vm_compute. left. reflexivity.
Defined.

(** ** The top-rated page *)

Lemma high_rating_names_cases (t : list RatedListing) :
  (high_rating_names t = Raise TypeError /\ exists r, In r t /\ name r = None)
  \/ ((exists ns, high_rating_names t = Ok ns) /\ forall r, In r t -> is_Some (name r)).
Proof.
  induction t as [|r t IH]; simpl.
  - right. split; [eauto|]. intros r [].
  - destruct (name r) as [s|] eqn:Hn.
    + destruct IH as [[Hr (x & Hx & Hxn)]|[[ns Hns] Hall]].
      * left. rewrite Hr. split; [reflexivity|]. exists x. auto.
      * right. rewrite Hns. simpl. split; [eauto|].
        intros x [<-|Hx]; [rewrite Hn; eauto|auto].
    + left. split; [reflexivity|]. exists r. auto.
Qed.

(** The page raises [TypeError] exactly when a row whose rating passes the
    threshold has no name; otherwise it returns its table. *)
Theorem top_rated_raises_iff_nameless (listings : ListingsFrame) (min_rating : Q)
    (selected : list string) :
  (snd (top_rated_airbnbs_page listings min_rating selected) = Raise TypeError <->
   exists r, In r (ensure_rating listings) /\ fge (rating r) min_rating = true
             /\ name r = None)
  /\ (snd (top_rated_airbnbs_page listings min_rating selected) = Raise TypeError
      \/ exists t, snd (top_rated_airbnbs_page listings min_rating selected) = Ok t).
Proof.
  unfold top_rated_airbnbs_page. simpl.
  destruct (high_rating_names_cases
              (List.filter (fun r : RatedListing => fge (rating r) min_rating)
                           (ensure_rating listings)))
    as [[Hr (x & Hx & Hn)]|[[ns Hns] Hall]].
  - rewrite Hr. simpl. split; [|left; reflexivity].
    split; [intros _|reflexivity]. apply filter_In in Hx as [Hx Hge]. eauto.
  - rewrite Hns. simpl. split; [|right; eauto].
    split; [discriminate|]. intros (r & Hr & Hge & Hn).
    assert (Hin : In r (List.filter (fun r : RatedListing => fge (rating r) min_rating)
                                    (ensure_rating listings)))
      by (apply filter_In; auto).
    apply Hall in Hin. rewrite Hn in Hin. destruct Hin as [s Hs]. discriminate Hs.
Qed.

Lemma filter_map_commute {A B : Type} (f : B -> bool) (g : A -> B) (l : list A) :
  List.filter f (map g l) = map g (List.filter (fun a => f (g a)) l).
Proof.
  induction l as [|a l IH]; [reflexivity|]. simpl.
  destruct (f (g a)); simpl; rewrite IH; reflexivity.
Qed.

Lemma high_rating_names_base (t t' : list RatedListing) :
  map base t = map base t' -> high_rating_names t = high_rating_names t'.
Proof.
  revert t'. induction t as [|r t IH]; intros [|r' t'] H; try discriminate; [reflexivity|].
  simpl in H. injection H as Hr Ht. simpl. rewrite Hr, (IH t' Ht). reflexivity.
Qed.

Lemma uncapped_rating_same_test (r : Listing) (min_rating : Q) :
  0 < min_rating -> min_rating <= 5 ->
  fge (rating (add_rating r)) min_rating = fge (rating (with_cleaner_rating r)) min_rating.
Proof.
  intros H0 H5. unfold add_rating, with_cleaner_rating, cleaner_rating. simpl.
  destruct (reviews_per_month r) as [|q]; simpl.
  - symmetry. apply not_true_is_false. rewrite Qle_bool_iff. lra.
  - destruct (Qle_bool (q * 5) 5) eqn:Hq; [reflexivity|].
    apply eq_true_iff_eq. rewrite !Qle_bool_iff.
    assert (~ q * 5 <= 5) by (rewrite <- Qle_bool_iff; congruence). lra.
Qed.

(** For a threshold in (0, 5], as the slider gives, the page selects the
    same listings from a table without the [rating] column as from the
    same table rated the way the cleaner does: the missing cap changes the
    rating shown, not the rows. *)
Theorem defensive_rating_selects_same_rows (rows : list Listing) (min_rating : Q)
    (selected : list string) :
  0 < min_rating -> min_rating <= 5 ->
  let uncapped := snd (top_rated_airbnbs_page (WithoutRating rows) min_rating selected) in
  let capped :=
    snd (top_rated_airbnbs_page (WithRating (map with_cleaner_rating rows))
           min_rating selected) in
  (uncapped = Raise TypeError /\ capped = Raise TypeError)
  \/ exists a b, uncapped = Ok a /\ capped = Ok b /\ map base a = map base b.
Proof.
  intros H0 H5. unfold top_rated_airbnbs_page. simpl.
  rewrite !filter_map_commute.
  rewrite (filter_ext (fun a : Listing => fge (rating (with_cleaner_rating a)) min_rating)
                      (fun a : Listing => fge (rating (add_rating a)) min_rating))
    by (intros r; symmetry; apply uncapped_rating_same_test; assumption).
  set (kept := List.filter (fun a : Listing => fge (rating (add_rating a)) min_rating) rows).
  assert (Hbase : map base (map add_rating kept) = map base (map with_cleaner_rating kept))
    by (rewrite !map_map; reflexivity).
  rewrite <- (high_rating_names_base _ _ Hbase).
  destruct (high_rating_names (map add_rating kept)) as [ns|e] eqn:Hnames; simpl.
  - right. do 2 eexists. split; [reflexivity|]. split; [reflexivity|].
    destruct selected as [|s0 sel]; [exact Hbase|].
    rewrite !map_map. reflexivity.
  - left. destruct (high_rating_names_cases (map add_rating kept)) as [[Hr _]|[[ns Hns] _]];
      [|congruence].
    rewrite Hnames in Hr. injection Hr as ->. auto.
Qed.

Lemma defensive_rating_selects_same_rows_witness :
  let uncapped := snd (top_rated_airbnbs_page (WithoutRating [busy_listing]) (9 # 2) []) in
  let capped :=
    snd (top_rated_airbnbs_page (WithRating (map with_cleaner_rating [busy_listing]))
           (9 # 2) []) in
  (uncapped = Raise TypeError /\ capped = Raise TypeError)
  \/ exists a b, uncapped = Ok a /\ capped = Ok b /\ map base a = map base b.
Proof.
  apply (defensive_rating_selects_same_rows [busy_listing] (9 # 2) []).
  - reflexivity.
  - unfold Qle. simpl. lia.
Defined.

Example defensive_rating_beyond_five :
  snd (top_rated_airbnbs_page (WithoutRating [busy_listing]) 6 []) = Ok [add_rating busy_listing]
  /\ snd (top_rated_airbnbs_page (WithRating [with_cleaner_rating busy_listing]) 6 []) = Ok [].
Proof. split; vm_compute; reflexivity. Qed.

(** ** The price page *)

Lemma rint_le_int (q : Q) (z : Z) : q <= inject_Z z -> (rint q <= z)%Z.
Proof.
  intros Hq. destruct (rint_nearest q) as [Hup _].
  destruct (Z.le_gt_cases (rint q) z) as [H|H]; [exact H|exfalso].
  assert (Hz : (z + 1 <= rint q)%Z) by lia.
  rewrite Zle_Qle, inject_Z_plus in Hz. change (inject_Z 1) with 1 in Hz. lra.
Qed.

Lemma rint_ge_int (q : Q) (z : Z) : inject_Z z <= q -> (z <= rint q)%Z.
Proof.
  intros Hq. destruct (rint_nearest q) as [_ Hdown].
  destruct (Z.le_gt_cases z (rint q)) as [H|H]; [exact H|exfalso].
  assert (Hz : (rint q + 1 <= z)%Z) by lia.
  rewrite Zle_Qle, inject_Z_plus in Hz. change (inject_Z 1) with 1 in Hz. lra.
Qed.

Lemma round2_within (q : Q) (lo hi : Z) :
  inject_Z lo <= q -> q <= inject_Z hi ->
  inject_Z lo <= round2 q /\ round2 q <= inject_Z hi.
Proof.
  intros Hlo Hhi. unfold round2. rewrite Qred_correct.
  assert (H1 : (lo * 100 <= rint (q * 100))%Z).
  { apply rint_ge_int. rewrite inject_Z_mult. change (inject_Z 100) with 100. lra. }
  assert (H2 : (rint (q * 100) <= hi * 100)%Z).
  { apply rint_le_int. rewrite inject_Z_mult. change (inject_Z 100) with 100. lra. }
  rewrite Zle_Qle, inject_Z_mult in H1, H2. change (inject_Z 100) with 100 in H1, H2.
  split; apply Qmult_le_r with (z := 100); try reflexivity; field_simplify; lra.
Qed.

Lemma Qsum_bounds (vs : list Q) (lo hi : Q) :
  (forall p, In p vs -> lo <= p /\ p <= hi) ->
  inject_Z (Z.of_nat (length vs)) * lo <= Qsum vs
  /\ Qsum vs <= inject_Z (Z.of_nat (length vs)) * hi.
Proof.
  induction vs as [|v vs IH]; intros H.
  - change (inject_Z (Z.of_nat (length (@nil Q)))) with 0. change (Qsum []) with 0.
    split; lra.
  - destruct IH as [IH1 IH2]; [intros; apply H; right; assumption|].
    destruct (H v (or_introl eq_refl)) as [Hv1 Hv2].
    change (Qsum (v :: vs)) with (v + Qsum vs).
    change (length (v :: vs)) with (S (length vs)).
    rewrite Nat2Z.inj_succ. unfold Z.succ. rewrite inject_Z_plus.
    change (inject_Z 1) with 1. split; lra.
Qed.

Lemma mean_bounds (vs : list Q) (lo hi : Q) :
  vs <> [] -> (forall p, In p vs -> lo <= p /\ p <= hi) ->
  lo <= Qsum vs / inject_Z (Z.of_nat (length vs))
  /\ Qsum vs / inject_Z (Z.of_nat (length vs)) <= hi.
Proof.
  intros Hne Hall. destruct (Qsum_bounds vs lo hi Hall) as [H1 H2].
  assert (Hpos : 0 < inject_Z (Z.of_nat (length vs))).
  { destruct vs; [congruence|]. change 0 with (inject_Z 0). rewrite <- Zlt_Qlt.
    simpl length. lia. }
  split.
  - apply Qle_shift_div_l; [exact Hpos|]. lra.
  - apply Qle_shift_div_r; [exact Hpos|]. lra.
Qed.

Lemma present_In (l : list float64) (p : Q) : In p (present l) <-> In (fin p) l.
Proof.
  induction l as [|x l IH]; simpl; [tauto|].
  destruct x as [|q]; simpl; rewrite IH.
  - split; [auto|]. intros [H|H]; [discriminate|exact H].
  - split; (intros [H|H]; [left; congruence|right; exact H]).
Qed.

Lemma filtered_data_in_range (listings : list RatedListing) (neighborhood : string)
    (price_range : Q * Q) (r : RatedListing) (p : Q) :
  In r (filtered_data listings neighborhood price_range) -> price r = fin p ->
  fst price_range <= p /\ p <= snd price_range.
Proof.
  unfold filtered_data. intros Hin Hp.
  assert (Hk : fge (price r) (fst price_range) = true
               /\ fle (price r) (snd price_range) = true).
  { destruct (String.eqb neighborhood "All"); apply filter_In in Hin as [_ Hk].
    - apply andb_prop in Hk. exact Hk.
    - apply andb_prop in Hk as [Hk Hle]. apply andb_prop in Hk as [_ Hge]. auto. }
  destruct Hk as [Hge Hle]. rewrite Hp in Hge, Hle. simpl in Hge, Hle.
  apply Qle_bool_iff in Hge. apply Qle_bool_iff in Hle. auto.
Qed.

(** With whole-number ends of the price range, as the slider gives them,
    every mean price in the pivot table lies in the selected range. *)
Theorem price_pivot_within_range (listings : list RatedListing) (neighborhood : string)
    (lo hi : Z) (n : string) (v : Q) :
  price_distribution_page listings neighborhood (inject_Z lo, inject_Z hi) !! n = Some v ->
  inject_Z lo <= v /\ v <= inject_Z hi.
Proof.
  unfold price_distribution_page. rewrite lookup_fmap, pivot_table_lookup.
  set (rows_n := List.filter (fun r : RatedListing => nb_eq (neighbourhood r) n)
                   (filtered_data listings neighborhood (inject_Z lo, inject_Z hi))).
  destruct (present (map (fun r : RatedListing => price r) rows_n)) as [|p ps] eqn:Hps;
    [discriminate|].
  intros Hv.
  change (Some (round2 (Qsum (p :: ps) / inject_Z (Z.of_nat (length (p :: ps))))) = Some v)
    in Hv.
  injection Hv as <-.
  assert (Hall : forall q, In q (p :: ps) -> inject_Z lo <= q /\ q <= inject_Z hi).
  { intros q Hq. rewrite <- Hps in Hq. apply present_In in Hq.
    apply in_map_iff in Hq as (r & Hr & Hin). apply filter_In in Hin as [Hin _].
    apply (filtered_data_in_range _ _ _ _ _ Hin Hr). }
  destruct (mean_bounds (p :: ps) (inject_Z lo) (inject_Z hi)) as [Hm1 Hm2];
    [discriminate|exact Hall|].
  apply round2_within; assumption.
Qed.

Lemma price_pivot_within_range_witness :
  inject_Z 50 <= 191 # 2 /\ 191 # 2 <= inject_Z 300.
Proof.
  apply (price_pivot_within_range sample_cleaned "All" 50 300 "Fenway" (191 # 2)).
  vm_compute. reflexivity.
Defined.

(** When a neighbourhood is selected, the pivot table has no other key. *)
Theorem price_pivot_single_key (listings : list RatedListing) (neighborhood : string)
    (price_range : Q * Q) (n : string) :
  neighborhood <> "All" ->
  is_Some (price_distribution_page listings neighborhood price_range !! n) ->
  n = neighborhood.
Proof.
  intros Hall Hsome. unfold price_distribution_page in Hsome.
  rewrite lookup_fmap, pivot_table_lookup in Hsome.
  destruct (List.filter (fun r : RatedListing => nb_eq (neighbourhood r) n)
              (filtered_data listings neighborhood price_range)) as [|r rs] eqn:Hrows.
  - simpl in Hsome. destruct Hsome as [v Hv]. discriminate Hv.
  - assert (Hr : In r (List.filter (fun r : RatedListing => nb_eq (neighbourhood r) n)
                         (filtered_data listings neighborhood price_range)))
      by (rewrite Hrows; left; reflexivity).
    apply filter_In in Hr as [Hr Hn]. apply nb_eq_spec in Hn.
    unfold filtered_data in Hr. apply String.eqb_neq in Hall. rewrite Hall in Hr.
    apply filter_In in Hr as [_ Hk]. apply andb_prop in Hk as [Hk _].
    apply andb_prop in Hk as [Hk _]. apply nb_eq_spec in Hk. congruence.
Qed.

Lemma price_pivot_single_key_witness : "Back Bay" = "Back Bay".
Proof.
  apply (price_pivot_single_key sample_cleaned "Back Bay" (50, 300) "Back Bay").
  - discriminate.
  - vm_compute. eexists. reflexivity.
Defined.

(** The mean price of a neighbourhood is the same whether the
    neighbourhood is selected alone or shown among all. *)
Theorem price_pivot_selection_consistent (listings : list RatedListing)
    (neighborhood : string) (price_range : Q * Q) :
  price_distribution_page listings neighborhood price_range !! neighborhood
  = price_distribution_page listings "All" price_range !! neighborhood.
Proof.
  unfold price_distribution_page. rewrite !lookup_fmap, !pivot_table_lookup.
  assert (Hrows :
    List.filter (fun r : RatedListing => nb_eq (neighbourhood r) neighborhood)
      (filtered_data listings neighborhood price_range)
    = List.filter (fun r : RatedListing => nb_eq (neighbourhood r) neighborhood)
        (filtered_data listings "All" price_range)).
  { unfold filtered_data. change (String.eqb "All" "All") with true.
    destruct (String.eqb neighborhood "All"); [reflexivity|].
    rewrite !filter_twice. apply filter_ext. intros r.
    destruct (nb_eq (neighbourhood r) neighborhood), (fge (price r) (fst price_range)),
      (fle (price r) (snd price_range)); reflexivity. }
  rewrite Hrows. reflexivity.
Qed.

(** ** The price slider *)

Lemma foldr_Qmin_le (v : Q) (vs : list Q) (x : Q) :
  In x (v :: vs) -> foldr Qmin v vs <= x.
Proof.
  induction vs as [|w vs IH]; simpl.
  - intros [<-|[]]. lra.
  - intros [<-|[<-|H]].
    + eapply Qle_trans; [apply Q.le_min_r|]. apply IH. left. reflexivity.
    + apply Q.le_min_l.
    + eapply Qle_trans; [apply Q.le_min_r|]. apply IH. right. exact H.
Qed.

Lemma foldr_Qmin_ge (v : Q) (vs : list Q) (c : Q) :
  (forall x, In x (v :: vs) -> c <= x) -> c <= foldr Qmin v vs.
Proof.
  induction vs as [|w vs IH]; simpl; intros H.
  - apply H. auto.
  - apply Q.min_glb; [apply H; auto|]. apply IH. intros x [<-|Hx]; apply H; auto.
Qed.

Lemma foldr_Qmax_ge (v : Q) (vs : list Q) (x : Q) :
  In x (v :: vs) -> x <= foldr Qmax v vs.
Proof.
  induction vs as [|w vs IH]; simpl.
  - intros [<-|[]]. lra.
  - intros [<-|[<-|H]].
    + eapply Qle_trans; [|apply Q.le_max_r]. apply IH. left. reflexivity.
    + apply Q.le_max_l.
    + eapply Qle_trans; [|apply Q.le_max_r]. apply IH. right. exact H.
Qed.

Lemma truncation_near (q : Q) :
  let z := if Qle_bool 0 q then Qfloor q else Qceiling q in
  inject_Z z - 1 < q /\ q < inject_Z z + 1
  /\ (0 <= q -> inject_Z z <= q /\ (0 <= z)%Z).
Proof.
  simpl. destruct (Qle_bool 0 q) eqn:H0.
  - apply Qle_bool_iff in H0. pose proof (Qfloor_le q) as H1.
    pose proof (Qlt_floor q) as H2. rewrite inject_Z_plus in H2.
    change (inject_Z 1) with 1 in H2.
    split; [lra|]. split; [lra|]. intros _. split; [exact H1|].
    change 0%Z with (Qfloor 0). apply Qfloor_resp_le. exact H0.
  - assert (Hneg : ~ 0 <= q) by (rewrite <- Qle_bool_iff; congruence).
    pose proof (Qle_ceiling q) as H1. pose proof (Qceiling_lt q) as H2.
    unfold Z.sub in H2. rewrite inject_Z_plus, inject_Z_opp in H2.
    change (inject_Z 1) with 1 in H2.
    split; [lra|]. split; [lra|]. intros Hq. contradiction.
Qed.

(** On a table in which no row has a price, the empty table among them,
    building the price slider raises [ValueError], and with it the price
    page, whatever is selected. *)
Theorem price_slider_needs_a_price (listings : list RatedListing)
    (neighborhood : string) (price_range : Q * Q) :
  (forall r, In r listings -> price r = nan) ->
  price_slider_bounds listings
    = Raise (OtherError "ValueError: cannot convert float NaN to integer")
  /\ price_distribution_view listings neighborhood price_range
     = Raise (OtherError "ValueError: cannot convert float NaN to integer").
Proof.
  intros Hnan.
  assert (Hp : present (map (fun r : RatedListing => price r) listings) = []).
  { induction listings as [|r l IH]; [reflexivity|]. simpl.
    rewrite (Hnan r (or_introl eq_refl)). apply IH. intros; apply Hnan; right; assumption. }
  assert (Hb : price_slider_bounds listings
               = Raise (OtherError "ValueError: cannot convert float NaN to integer")).
  { unfold price_slider_bounds, series_min. rewrite Hp. reflexivity. }
  split; [exact Hb|]. unfold price_distribution_view. rewrite Hb. reflexivity.
Qed.

Lemma price_slider_needs_a_price_witness :
  price_slider_bounds [sample_harbour]
    = Raise (OtherError "ValueError: cannot convert float NaN to integer")
  /\ price_distribution_view [sample_harbour] "All" (50, 300)
     = Raise (OtherError "ValueError: cannot convert float NaN to integer").
Proof.
  apply (price_slider_needs_a_price [sample_harbour] "All" (50, 300)).
  intros r [<-|[]]. reflexivity.
Defined.

(** On a table with a priced row the slider gets its two bounds, and every
    price lies less than 1 outside them: above [min_value - 1] and below
    [max_value + 1].  When no price is negative, [min_value] is not
    negative and no price is below it. *)
Theorem price_slider_encloses_prices (listings : list RatedListing)
    (r : RatedListing) (p : Q) :
  In r listings -> price r = fin p ->
  exists min_value max_value,
    price_slider_bounds listings = Ok (min_value, max_value)
    /\ (forall r' p', In r' listings -> price r' = fin p' ->
          inject_Z min_value - 1 < p' /\ p' < inject_Z max_value + 1)
    /\ ((forall r' p', In r' listings -> price r' = fin p' -> 0 <= p') ->
        (0 <= min_value)%Z
        /\ forall r' p', In r' listings -> price r' = fin p' -> inject_Z min_value <= p').
Proof.
  intros Hr Hp.
  assert (Hin : In p (present (map (fun r : RatedListing => price r) listings)))
    by (apply present_In; apply in_map_iff; exists r; auto).
  assert (Hall : forall r' p', In r' listings -> price r' = fin p' ->
                   In p' (present (map (fun r : RatedListing => price r) listings)))
    by (intros r' p' Hr' Hp'; apply present_In; apply in_map_iff; exists r'; auto).
  assert (Hback : forall p', In p' (present (map (fun r : RatedListing => price r) listings)) ->
                    exists r', In r' listings /\ price r' = fin p').
  { intros p' Hp'. apply present_In in Hp'. apply in_map_iff in Hp' as (r' & H1 & H2). eauto. }
  unfold price_slider_bounds, series_min, series_max.
  destruct (present (map (fun r : RatedListing => price r) listings)) as [|v vs];
    [destruct Hin|].
  simpl. do 2 eexists. split; [reflexivity|].
  destruct (truncation_near (foldr Qmin v vs)) as (Hlo1 & _ & Hlo3).
  destruct (truncation_near (foldr Qmax v vs)) as (_ & Hhi2 & _).
  simpl in Hlo1, Hlo3, Hhi2. split.
  - intros r' p' Hr' Hp'. pose proof (Hall r' p' Hr' Hp') as Hp'in.
    pose proof (foldr_Qmin_le v vs p' Hp'in). pose proof (foldr_Qmax_ge v vs p' Hp'in).
    split; lra.
  - intros Hnonneg.
    assert (Hmin : 0 <= foldr Qmin v vs).
    { apply foldr_Qmin_ge. intros x Hx. destruct (Hback x Hx) as (r' & H1 & H2). eauto. }
    destruct (Hlo3 Hmin) as [Hle Hz]. split; [exact Hz|].
    intros r' p' Hr' Hp'. pose proof (foldr_Qmin_le v vs p' (Hall r' p' Hr' Hp')). lra.
Qed.

Lemma price_slider_encloses_prices_witness :
  exists min_value max_value,
    price_slider_bounds sample_cleaned = Ok (min_value, max_value)
    /\ (forall r' p', In r' sample_cleaned -> price r' = fin p' ->
          inject_Z min_value - 1 < p' /\ p' < inject_Z max_value + 1)
    /\ ((forall r' p', In r' sample_cleaned -> price r' = fin p' -> 0 <= p') ->
        (0 <= min_value)%Z
        /\ forall r' p', In r' sample_cleaned -> price r' = fin p' -> inject_Z min_value <= p').
Proof.
  apply (price_slider_encloses_prices sample_cleaned sample_loft 150).
  - left. reflexivity.
  - reflexivity.
Defined.

Example price_slider_sample :
  price_slider_bounds sample_cleaned = Ok (95, 150)%Z
  /\ price_slider_bounds [sample_suite] = Ok (95, 95)%Z
  /\ price_slider_bounds [] = Raise (OtherError "ValueError: cannot convert float NaN to integer").
Proof. repeat split; vm_compute; reflexivity. Qed.

Lemma foldr_Qmax_le (v : Q) (vs : list Q) (c : Q) :
  (forall x, In x (v :: vs) -> x <= c) -> foldr Qmax v vs <= c.
Proof.
  induction vs as [|w vs IH]; simpl; intros H.
  - apply H. auto.
  - apply Q.max_lub; [apply H; auto|]. apply IH. intros x [<-|Hx]; apply H; auto.
Qed.

(** When the highest price of the table is not a whole number, the
    slider's [max_value] is below it, and the listing with that price is
    in the page's table for no price range whose upper end the slider
    allows. *)
Theorem fractional_top_price_never_shown (listings : list RatedListing)
    (neighborhood : string) (price_range : Q * Q) (min_value max_value : Z)
    (r : RatedListing) (p : Q) :
  price_slider_bounds listings = Ok (min_value, max_value) ->
  In r listings -> price r = fin p -> 0 <= p ->
  (forall r' p', In r' listings -> price r' = fin p' -> p' <= p) ->
  ~ p == inject_Z (Qfloor p) ->
  snd price_range <= inject_Z max_value ->
  inject_Z max_value < p
  /\ ~ In r (filtered_data listings neighborhood price_range).
Proof.
  intros Hb Hr Hp H0 Hmax Hfrac Hhi.
  assert (Hbelow : inject_Z max_value < p).
  { unfold price_slider_bounds, series_min, series_max in Hb.
    assert (Hin : In p (present (map (fun r : RatedListing => price r) listings)))
      by (apply present_In; apply in_map_iff; exists r; auto).
    assert (Hle : forall x, In x (present (map (fun r : RatedListing => price r) listings)) ->
                    x <= p).
    { intros x Hx. apply present_In in Hx. apply in_map_iff in Hx as (r' & H1 & H2). eauto. }
    destruct (present (map (fun r : RatedListing => price r) listings)) as [|v vs];
      [destruct Hin|].
    simpl in Hb. injection Hb as _ Hmv.
    assert (Heq : foldr Qmax v vs == p).
    { apply Qle_antisym; [apply foldr_Qmax_le; exact Hle|apply foldr_Qmax_ge; exact Hin]. }
    assert (Hpos : Qle_bool 0 (foldr Qmax v vs) = true)
      by (apply Qle_bool_iff; rewrite Heq; exact H0).
    rewrite Hpos in Hmv. subst max_value. rewrite (Qfloor_comp _ _ Heq).
    pose proof (Qfloor_le p) as Hfl.
    destruct (Qlt_le_dec (inject_Z (Qfloor p)) p) as [Hlt|Hge]; [exact Hlt|].
    exfalso. apply Hfrac. apply Qle_antisym; assumption. }
  split; [exact Hbelow|]. intros Hin.
  destruct (filtered_data_in_range _ _ _ _ _ Hin Hp) as [_ Hle]. lra.
Qed.

Lemma fractional_top_price_never_shown_witness :
  inject_Z 95 < 191 # 2
  /\ ~ In sample_suite (filtered_data [sample_suite] "All" (95, 95)).
Proof.
  apply (fractional_top_price_never_shown [sample_suite] "All" (95, 95) 95 95
           sample_suite (191 # 2)).
  - vm_compute. reflexivity.
  - left. reflexivity.
  - reflexivity.
  - unfold Qle. simpl. lia.
  - intros r' p' [<-|[]] Hp'. injection Hp' as <-. unfold Qle. simpl. lia.
  - unfold Qeq. simpl. lia.
  - unfold Qle. simpl. lia.
Defined.

(** ** The restaurant page *)

(** The page shows the catalogue with exactly the rows kept that match the
    selected location, unless it is ["All"], and the selected cuisine,
    unless it is ["All"], in catalogue order; a restaurant without
    location matches no selected location. *)
Theorem restaurant_page_is_filter (restaurants : list Restaurant) (location cuisine : string) :
  exists keep : Restaurant -> bool,
    restaurant_page restaurants location cuisine = List.filter keep restaurants
    /\ forall r, keep r = true <->
         (location <> "All" -> Location r = Some location)
         /\ (cuisine <> "All" -> Cuisine r = Some cuisine).
Proof.
  unfold restaurant_page.
  destruct (String.eqb_spec location "All") as [Hl|Hl],
           (String.eqb_spec cuisine "All") as [Hc|Hc]; simpl.
  - exists (fun _ => true). split.
    + induction restaurants as [|r l IH]; [reflexivity|]. simpl. rewrite <- IH. reflexivity.
    + intros r. split; [intros _; split; intros H; contradiction|reflexivity].
  - exists (fun r => nb_eq (Cuisine r) cuisine). split; [reflexivity|].
    intros r. rewrite nb_eq_spec. split; [intros H; split; [intros H'; contradiction|auto]|].
    intros [_ H]. auto.
  - exists (fun r => nb_eq (Location r) location). split; [reflexivity|].
    intros r. rewrite nb_eq_spec. split; [intros H; split; [auto|intros H'; contradiction]|].
    intros [H _]. auto.
  - exists (fun r => nb_eq (Location r) location && nb_eq (Cuisine r) cuisine).
    split; [apply filter_twice|].
    intros r. rewrite andb_true_iff, !nb_eq_spec. split; [intros [H1 H2]; auto|].
    intros [H1 H2]. auto.
Qed.

Example restaurant_page_sample :
  restaurant_page sample_restaurants "North End" "Italian"
    = [ {| rest_name := Some "Trattoria"; Location := Some "North End";
           Cuisine := Some "Italian" |} ]
  /\ length (restaurant_page sample_restaurants "All" "All") = 3%nat
  /\ restaurant_page sample_restaurants "Back Bay" "All" = [].
Proof. repeat split; vm_compute; reflexivity. Qed.

(** ** [main] *)

Lemma load_data_listings_cleaned (parse : string -> option Q) (src : Sources)
    (log : list string) (l : list RatedListing) (n : option Neighbourhoods)
    (rv : option Reviews) (rs : option (list Restaurant)) :
  load_data parse src = (log, Ok (Some l, n, rv, rs)) ->
  log = [] /\ exists raw, listings_csv src = Ok raw /\ clean parse raw = Ok l.
Proof.
  unfold load_data, read_sources.
  destruct (listings_csv src) as [raw|e]; simpl.
  - destruct (neighbourhoods_csv src) as [n'|e]; simpl.
    + destruct (reviews_csv src) as [rv'|e]; simpl.
      * destruct (restaurants_xlsx src) as [rs'|e]; simpl.
        -- destruct (clean parse raw) as [c|e] eqn:Hc; intros H; inversion H; subst. eauto.
        -- destruct e; intros H; inversion H.
      * destruct e; intros H; inversion H.
    + destruct e; intros H; inversion H.
  - destruct e; intros H; inversion H.
Qed.

(** The first source that does not load decides what [main] does,
    whichever page is selected: on a [FileNotFoundError] or a
    [ParserError] it shows two error messages, the loader's and its own,
    and renders no page, the home page included; any other exception
    escapes [main] with no message. *)
Theorem main_on_first_failure (parse : string -> option Q)
    (sort_values : list RatedListing -> list RatedListing)
    (src : Sources) (page : string) (w : Widgets) (e : exn) :
  first_failure src e ->
  main parse sort_values src page w
  = match e with
    | FileNotFoundError m =>
        ([String.append "File not found: " m; load_error], Ok NoView)
    | ParserError m =>
        ([String.append "Error parsing CSV or Excel files: " m; load_error], Ok NoView)
    | _ => ([], Raise e)
    end.
Proof.
  unfold first_failure, loaded, main, load_data, read_sources.
  intros [H1|[([l Hl] & H2)|[([l Hl] & [n Hn] & H3)|([l Hl] & [n Hn] & [rv Hrv] & H4)]]].
  - rewrite H1. destruct e; reflexivity.
  - rewrite Hl, H2. destruct e; reflexivity.
  - rewrite Hl, Hn, H3. destruct e; reflexivity.
  - rewrite Hl, Hn, Hrv, H4. destruct e; reflexivity.
Qed.

Lemma main_on_first_failure_witness :
  main decimal_number stable_sort sources_without_restaurants "Home" sample_widgets
  = ([String.append "File not found: " "restaurants.xlsx"; load_error], Ok NoView).
Proof.
  apply (main_on_first_failure decimal_number stable_sort sources_without_restaurants
           "Home" sample_widgets (FileNotFoundError "restaurants.xlsx")).
  unfold first_failure, loaded. simpl.
  right. right. right. repeat split; try (eexists; reflexivity).
Defined.

Example main_malformed_excel :
  main decimal_number stable_sort sources_malformed_excel "Home" sample_widgets
  = ([], Raise (OtherError "ValueError: Excel file format cannot be determined")).
Proof. reflexivity. Qed.

(** Every row [main] shows on the top-rated page comes out of the cleaner:
    its rating is at least the slider's threshold and at most 5, it has a
    name and a neighbourhood, and the neighbourhood is among the selected
    ones when some are selected. *)
Theorem main_top_rated_rows (parse : string -> option Q)
    (sort_values : list RatedListing -> list RatedListing)
    (src : Sources) (w : Widgets) (log : list string) (rows : list RatedListing)
    (r : RatedListing) :
  main parse sort_values src "Top-Rated Airbnbs" w = (log, Ok (TopRatedView rows)) ->
  In r rows ->
  log = []
  /\ (exists t, rating r = fin t /\ min_rating_slider w <= t /\ t <= 5)
  /\ is_Some (name r)
  /\ is_Some (neighbourhood r)
  /\ (selected_neighborhoods_multiselect w <> [] ->
      exists s, In s (selected_neighborhoods_multiselect w) /\ neighbourhood r = Some s).
Proof.
  unfold main. intros Hmain Hr.
  destruct (load_data parse src) as [log' [[[[[l|] [n|]] [rv|]] [rs|]]|e]] eqn:Hload;
    try (inversion Hmain; fail).
  change (String.eqb "Top-Rated Airbnbs" "Home") with false in Hmain.
  change (String.eqb "Top-Rated Airbnbs" "Top-Rated Airbnbs") with true in Hmain.
  cbv iota in Hmain.
  destruct (load_data_listings_cleaned _ _ _ _ _ _ _ Hload) as (Hlog & raw & _ & Hclean).
  unfold top_rated_airbnbs_page in Hmain. simpl in Hmain.
  set (passed := List.filter (fun x : RatedListing => fge (rating x) (min_rating_slider w)) l)
    in Hmain.
  destruct (high_rating_names_cases passed) as [[Hraise _]|[[ns Hns] Hnames]];
    [rewrite Hraise in Hmain; simpl in Hmain; inversion Hmain|].
  rewrite Hns in Hmain. simpl in Hmain. subst log'.
  inversion Hmain; subst log rows; clear Hmain.
  assert (Hpassed : In r passed /\
            (selected_neighborhoods_multiselect w <> [] ->
             exists s, In s (selected_neighborhoods_multiselect w)
                       /\ neighbourhood r = Some s)).
  { destruct (selected_neighborhoods_multiselect w) as [|s0 sel]; [split; [exact Hr|congruence]|].
    apply filter_In in Hr as [Hr Hsel]. split; [exact Hr|].
    intros _. apply isin_spec. exact Hsel. }
  destruct Hpassed as [Hp Hsel]. pose proof (Hnames r Hp) as Hname.
  apply filter_In in Hp as [Hl Hge]. apply fge_spec in Hge as (t & Ht & Hmin).
  destruct (clean_rows_from_raw _ _ _ _ Hclean Hl) as (x & _ & Hk & Hx).
  destruct (clean_row_Ok _ _ _ Hx) as (q & _ & _ & Hrt & _ & Hnb & _).
  destruct (capped_rating_bounds q) as [Hcap _].
  split; [reflexivity|]. split.
  - exists t. split; [exact Ht|]. split; [exact Hmin|].
    rewrite Hrt in Ht. injection Ht as <-. exact Hcap.
  - split; [exact Hname|]. split; [|exact Hsel].
    rewrite Hnb. unfold dropna_keep in Hk.
    apply andb_prop in Hk as [Hk _]. apply andb_prop in Hk as [_ Hk].
    apply bool_decide_eq_true in Hk. exact Hk.
Qed.

Lemma main_top_rated_rows_witness :
  [] = @nil string
  /\ (exists t, rating sample_suite = fin t /\ min_rating_slider sample_widgets <= t /\ t <= 5)
  /\ is_Some (name sample_suite)
  /\ is_Some (neighbourhood sample_suite)
  /\ (selected_neighborhoods_multiselect sample_widgets <> [] ->
      exists s, In s (selected_neighborhoods_multiselect sample_widgets)
                /\ neighbourhood sample_suite = Some s).
Proof.
  apply (main_top_rated_rows decimal_number stable_sort sample_sources sample_widgets
           [] [sample_suite] sample_suite).
  - vm_compute. reflexivity.
  - left. reflexivity.
Defined.

(** ** Properties of the loader and of the top-rated page at sample inputs *)

Lemma load_data_never_partial_witness :
  (no_tables = no_tables /\ ["File not found: restaurants.xlsx"] <> @nil string)
  \/ (exists l n rv rs,
        no_tables = (Some l, Some n, Some rv, Some rs)
        /\ ["File not found: restaurants.xlsx"] = @nil string).
Proof.
  apply (load_data_never_partial decimal_number sources_without_restaurants
           ["File not found: restaurants.xlsx"] no_tables).
  reflexivity.
Defined.

Lemma top_rated_rows_witness :
  exists keep : RatedListing -> bool,
    snd (top_rated_airbnbs_page (WithRating sample_cleaned) (9 # 2) ["Fenway"])
      = Ok (List.filter keep (ensure_rating (WithRating sample_cleaned)))
    /\ forall r, keep r = true <->
         (exists t, rating r = fin t /\ 9 # 2 <= t)
         /\ (["Fenway"] <> [] -> exists s, In s ["Fenway"] /\ neighbourhood r = Some s).
Proof.
  apply (top_rated_rows (WithRating sample_cleaned) (9 # 2) ["Fenway"]).
  intros r Hr _. simpl in Hr. destruct Hr as [<-|[<-|[<-|[]]]]; eexists; reflexivity.
Defined.

Lemma top_rated_narrows_witness : In sample_suite [sample_loft; sample_suite].
Proof.
  apply (top_rated_narrows (WithRating sample_cleaned) (9 # 2) 2 []
           [sample_suite] [sample_loft; sample_suite]).
  - unfold Qle. simpl. lia.
  - vm_compute. reflexivity.
  - vm_compute. reflexivity.
  - left. reflexivity.
Defined.

(** ** The query layer and its input *)


